(** * bug-buster-ai: the Analyze page, the Dropzone, the Header and the Dashboard

  A shallow embedding of the event handlers of [src/pages/Analyze.tsx]
  (the Analyze page and the Dashboard that shares the file), of the
  default configuration of the Dropzone in [src/components/ui/code-block.tsx]
  and of the sign-out handler of [src/components/Header.tsx].

  React state is a record, every [setX] writes its field, and the effects
  a handler has on the outside (toasts, timers, the clipboard, a download,
  a navigation) are appended to a log kept next to the state, so that
  their order can be read back.  Handlers live in a small state and
  exception monad that gives [try]/[catch]/[finally] its JavaScript
  meaning.

  JavaScript strings are modelled as Rocq strings, that is as sequences
  of code units below 256; [toLowerCase] and [trim] are given on that
  range (Latin-1), where lower-casing goes character by character.  A
  file name with code units from 256 on, where [toLowerCase] can depend
  on the neighbours of a character (a capital sigma at the end of a
  word), is outside the model.  Every string literal of the sources is
  ASCII.

  JavaScript numbers are IEEE 754 binary64 values where the arithmetic of
  the source can round (the average of the Dashboard), in the
  specification-level floats of the Standard Library; sizes and
  percentages that the handlers only compare or copy are naturals. *)

From Stdlib Require Import ZArith NArith QArith Qround Ascii String List Sorted Lia.
From Stdlib Require Import SpecFloat.
From stdpp Require Import base option strings list gmap pretty.

Local Open Scope string_scope.
Local Open Scope N_scope.

(** ** JavaScript strings *)
Module JS.

(** [String.prototype.toLowerCase] on one code unit below 256: A-Z, and
    the upper-case letters of Latin-1 (U+00C0-U+00DE without U+00D7).
    On this range the lower case of a string is the lower case of its
    characters; beyond it the function of JavaScript is sensitive to
    context and this definition does not apply. *)
Definition lower_char (c : ascii) : ascii :=
  let n := N_of_ascii c in
  if ((65 <=? n) && (n <=? 90))
     || ((192 <=? n) && (n <=? 222) && negb (n =? 215))
  then ascii_of_N (n + 32) else c.

Fixpoint toLowerCase (s : string) : string :=
  match s with
  | EmptyString => EmptyString
  | String c s' => String (lower_char c) (toLowerCase s')
  end.

(** White space and line terminators below 256, as [trim] strips them:
    TAB, LF, VT, FF, CR, SP and NBSP. *)
Definition is_white (c : ascii) : bool :=
  let n := N_of_ascii c in
  ((9 <=? n) && (n <=? 13)) || (n =? 32) || (n =? 160).

Fixpoint trimStart (s : string) : string :=
  match s with
  | EmptyString => EmptyString
  | String c s' => if is_white c then trimStart s' else s
  end.

(** [trimEnd]: a character is dropped when it is white and everything
    after it has been dropped. *)
Fixpoint trimEnd (s : string) : string :=
  match s with
  | EmptyString => EmptyString
  | String c s' =>
      match trimEnd s' with
      | EmptyString => if is_white c then EmptyString else String c EmptyString
      | t => String c t
      end
  end.

Definition trim (s : string) : string := trimEnd (trimStart s).

(** Truthiness of a string: every string but the empty one. *)
Definition truthy (s : string) : bool :=
  match s with EmptyString => false | String _ _ => true end.

(** [s.split(sep)] for a separator of one character; the array it
    returns is never empty. *)
Fixpoint split (sep : ascii) (s : string) : list string :=
  match s with
  | EmptyString => [EmptyString]
  | String c s' =>
      if Ascii.eqb c sep then EmptyString :: split sep s'
      else match split sep s' with
           | h :: t => String c h :: t
           | [] => [String c EmptyString]
           end
  end.

(** [a.pop()] read as a value: the last element, [undefined] on the
    empty array. *)
Definition pop (a : list string) : option string := last a.

(** [a.includes(x)] on an array of strings. *)
Definition includes (a : list string) (x : string) : bool :=
  existsb (String.eqb x) a.

(** [s.substring(1)]. *)
Definition substring1 (s : string) : string :=
  match s with EmptyString => EmptyString | String _ s' => s' end.

(** [s.endsWith(t)]. *)
Definition endsWith (s t : string) : bool :=
  let ls := String.length s in
  let lt := String.length t in
  (lt <=? ls)%nat && String.eqb (String.substring (ls - lt) lt s) t.

(** Whether the character occurs in the string. *)
Fixpoint contains (c : ascii) (s : string) : bool :=
  match s with
  | EmptyString => false
  | String d s' => Ascii.eqb d c || contains c s'
  end.

(** The extension of a file name, as the word is commonly used: the text
    from the last dot on, the dot included, and nothing for a name
    without a dot. *)
Fixpoint extname (s : string) : string :=
  match s with
  | EmptyString => EmptyString
  | String c s' =>
      if contains "." s' then extname s'
      else if Ascii.eqb c "." then s
      else EmptyString
  end.

Definition is_digit (c : ascii) : bool :=
  let n := N_of_ascii c in (48 <=? n) && (n <=? 57).

(** The value of the digits at the head of a string, [acc] being the
    value of the digits already read. *)
Fixpoint readDigits (acc : N) (s : string) : N :=
  match s with
  | String c s' =>
      if is_digit c then readDigits (10 * acc + (N_of_ascii c - 48)) s' else acc
  | EmptyString => acc
  end.

(** The first decimal number written in a text, if there is one. *)
Fixpoint firstNumber (s : string) : option N :=
  match s with
  | EmptyString => None
  | String c s' => if is_digit c then Some (readDigits 0 s) else firstNumber s'
  end.

(** [s.startsWith(t)]. *)
Definition startsWith (s t : string) : bool := String.prefix t s.

(** A decimal number in a template literal: [`${n}`] for an integer. *)
Definition show (n : Z) : string := pretty n.

(** Whether a string is made of white characters only. *)
Fixpoint allWhite (s : string) : bool :=
  match s with
  | EmptyString => true
  | String c s' => is_white c && allWhite s'
  end.

End JS.

(** ** The Analyze page: [src/pages/Analyze.tsx] *)
Module Analyze.
Import JS.

(** The fields of a browser [File] that the handlers read, with the text
    that a [FileReader] delivers for it. *)
Record File := mkFile {
  name : string;
  size : N;
  type : string;
  content : string
}.

Inductive Severity := critical | warning | info.

Record Problem := mkProblem {
  p_type : Severity;
  p_title : string;
  p_description : string;
  p_line : option Z;
  p_fix : string
}.

Record AnalysisResult := mkResult {
  summary : string;
  problems : list Problem;
  fixes : string;
  confidence : Z;
  securityIssues : Z;
  performanceIssues : Z;
  bugCount : Z
}.

(** A toast; [variant] is absent in the calls that announce a success. *)
Inductive Variant := default | destructive.

Record Toast := mkToast {
  title : string;
  description : string;
  variant : Variant
}.

(** What a handler does to the world outside React state. *)
Inductive effect :=
| ShowToast (t : Toast)
| Timer (ms : N)
| ProgressShown (p : N)
| ClipboardWrite (text : string)
| Download (filename text : string)
| Navigate (path : string).

(** The [useState] cells of the component, the [FileReader]s that have
    been started and not yet fired (each with the [fileExtension] its
    [onload] closure captured and the text it will deliver), and the log
    of effects. *)
Record State := mkState {
  code : string;
  language : string;
  isAnalyzing : bool;
  progress : N;
  analysisResult : option AnalysisResult;
  uploadedFile : option File;
  readers : list (string * string);
  log : list effect
}.

Definition initial : State :=
  mkState "" "javascript" false 0 None None [] [].

(** *** The handler monad *)
Inductive outcome (A : Type) :=
| Returned (a : A)
| Thrown (e : string).
Arguments Returned {A} a.
Arguments Thrown {A} e.

Definition M (A : Type) : Type := State -> outcome A * State.

Definition ret {A} (a : A) : M A := fun st => (Returned a, st).
Definition throw {A} (e : string) : M A := fun st => (Thrown e, st).
Definition bind {A B} (m : M A) (k : A -> M B) : M B :=
  fun st =>
    match m st with
    | (Returned a, st') => k a st'
    | (Thrown e, st') => (Thrown e, st')
    end.

Notation "x <- m ;; k" := (bind m (fun x => k))
  (at level 100, m at next level, right associativity).
Notation "m ;; k" := (bind m (fun _ => k))
  (at level 100, right associativity).

(** [try { body } catch (e) { handler } finally { fin }]: the handler
    runs on what the body throws, [fin] runs last on every path, and an
    exception of the handler is thrown again after [fin]. *)
Definition try_catch_finally {A}
    (body : M A) (handler : string -> M A) (fin : M unit) : M A :=
  fun st =>
    let '(r, st1) :=
      match body st with
      | (Returned a, st1) => (Returned a, st1)
      | (Thrown e, st1) => handler e st1
      end in
    match fin st1 with
    | (Returned _, st2) => (r, st2)
    | (Thrown e, st2) => (Thrown e, st2)
    end.

(** [try { body } catch (e) { handler }]. *)
Definition try_catch {A} (body : M A) (handler : string -> M A) : M A :=
  fun st =>
    match body st with
    | (Returned a, st1) => (Returned a, st1)
    | (Thrown e, st1) => handler e st1
    end.

Definition exec {A} (m : M A) (st : State) : State := snd (m st).

Definition get {A} (f : State -> A) : M A := fun st => (Returned (f st), st).
Definition modify (f : State -> State) : M unit := fun st => (Returned tt, f st).

(** A state with one more effect in its log, every cell as it was. *)
Definition logged (e : effect) (st : State) : State :=
  mkState (code st) (language st) (isAnalyzing st) (progress st)
          (analysisResult st) (uploadedFile st) (readers st)
          (log st ++ [e]).

Definition emit (e : effect) : M unit := modify (logged e).

Definition setCode (c : string) : M unit :=
  modify (fun st => mkState c (language st) (isAnalyzing st) (progress st)
                            (analysisResult st) (uploadedFile st) (readers st) (log st)).
Definition setLanguage (l : string) : M unit :=
  modify (fun st => mkState (code st) l (isAnalyzing st) (progress st)
                            (analysisResult st) (uploadedFile st) (readers st) (log st)).
Definition setIsAnalyzing (b : bool) : M unit :=
  modify (fun st => mkState (code st) (language st) b (progress st)
                            (analysisResult st) (uploadedFile st) (readers st) (log st)).
(** [setProgress] writes the cell; the value the progress bar then shows
    is logged, so that the order of the updates and timers can be read. *)
Definition setProgress (p : N) : M unit :=
  modify (fun st => mkState (code st) (language st) (isAnalyzing st) p
                            (analysisResult st) (uploadedFile st) (readers st)
                            (log st ++ [ProgressShown p])).
Definition setAnalysisResult (r : option AnalysisResult) : M unit :=
  modify (fun st => mkState (code st) (language st) (isAnalyzing st) (progress st)
                            r (uploadedFile st) (readers st) (log st)).
Definition setUploadedFile (f : option File) : M unit :=
  modify (fun st => mkState (code st) (language st) (isAnalyzing st) (progress st)
                            (analysisResult st) f (readers st) (log st)).

Definition toast (t : Toast) : M unit := emit (ShowToast t).

(** [await new Promise(resolve => setTimeout(resolve, ms))]. *)
Definition sleep (ms : N) : M unit := emit (Timer ms).

(** [reader.onload = ...; reader.readAsText(file)]: the reader is
    started; its [onload] runs later, see [reader_onload]. *)
Definition readAsText (file : File) (fileExtension : string) : M unit :=
  modify (fun st => mkState (code st) (language st) (isAnalyzing st) (progress st)
                            (analysisResult st) (uploadedFile st)
                            (readers st ++ [(fileExtension, content file)]) (log st)).

(** *** [handleFileUpload] *)
Definition allowedTypes : list string :=
  [".js"; ".ts"; ".jsx"; ".tsx"; ".py"; ".java"; ".cpp"; ".c"; ".php"; ".rb"; ".go"; ".rs"].

(** ['.' + file.name.split('.').pop()?.toLowerCase()] *)
Definition fileExtension (file : File) : string :=
  "." +:+ match pop (split "." (name file)) with
          | Some e => toLowerCase e
          | None => "undefined"
          end.

Definition maxUpload : N := 10 * 1024 * 1024.

Definition invalidTypeToast : Toast :=
  mkToast "Invalid file type"
          "Please upload a supported code file (.js, .ts, .py, .java, etc.)"
          destructive.

Definition tooLargeToast : Toast :=
  mkToast "File too large" "Please upload a file smaller than 10MB." destructive.

(** [files] is [event.target.files]; [files?.[0]] is its head. *)
Definition handleFileUpload (files : list File) : M unit :=
  match head files with
  | None => ret tt
  | Some file =>
      if negb (includes allowedTypes (fileExtension file)) then
        toast invalidTypeToast
      else if maxUpload <? size file then
        toast tooLargeToast
      else
        setUploadedFile (Some file) ;;
        readAsText file (fileExtension file)
  end.

(** The state after an upload that passed both checks: what
    [setUploadedFile] and [readAsText] leave. *)
Definition uploadStarted (file : File) (st : State) : State :=
  mkState (code st) (language st) (isAnalyzing st) (progress st)
          (analysisResult st) (Some file)
          (readers st ++ [(fileExtension file, content file)]) (log st).

Definition langMap : gmap string string :=
  list_to_map
    [("js", "javascript"); ("jsx", "javascript"); ("ts", "typescript");
     ("tsx", "typescript"); ("py", "python"); ("java", "java");
     ("cpp", "cpp"); ("c", "c"); ("php", "php"); ("rb", "ruby");
     ("go", "go"); ("rs", "rust")].

(** The [onload] closure of the reader that [handleFileUpload] started.
    [langMap] is read at a key that comes from [allowedTypes] only, so
    its own properties are all that the lookup can reach. *)
Definition reader_onload (fileExtension content : string) : M unit :=
  setCode content ;;
  let ext := substring1 fileExtension in
  match langMap !! ext with
  | Some l => if truthy l then setLanguage l else ret tt
  | None => ret tt
  end.

(** The [i]-th started reader fires and is gone. *)
Definition fire_reader (i : nat) : M unit :=
  rs <- get readers ;;
  match rs !! i with
  | None => ret tt
  | Some (fileExtension, text) =>
      modify (fun st => mkState (code st) (language st) (isAnalyzing st) (progress st)
                                (analysisResult st) (uploadedFile st)
                                (delete i (readers st)) (log st)) ;;
      reader_onload fileExtension text
  end.

(** *** [simulateAnalysis] *)
Record ProgressStep := mkStep {
  step_progress : N;
  step_message : string
}.

Definition progressSteps : list ProgressStep :=
  [ mkStep 20 "Parsing code structure...";
    mkStep 40 "Analyzing for bugs...";
    mkStep 60 "Checking security vulnerabilities...";
    mkStep 80 "Generating fixes...";
    mkStep 100 "Analysis complete!" ].

(** [for (const x of l) { body }] *)
Fixpoint for_of {A} (l : list A) (body : A -> M unit) : M unit :=
  match l with
  | [] => ret tt
  | x :: l' => body x ;; for_of l' body
  end.

Definition mockFixes : string :=
"// Fixed code with improvements:
import React, { useState, useEffect, memo } from 'react';

const UserProfile = memo(({ userId }) => {
  const [user, setUser] = useState(null);
  const [loading, setLoading] = useState(false);

  useEffect(() => {
    let isMounted = true;
    setLoading(true);
    
    fetch(`/api/users/${userId}`)
      .then(response => response.json())
      .then(data => {
        if (isMounted) {
          setUser(data);
          setLoading(false);
        }
      })
      .catch(err => {
        if (isMounted) {
          console.error('Failed to fetch user:', err);
          setLoading(false);
        }
      });

    return () => {
      isMounted = false;
    };
  }, [userId]);

  return (
    <div>
      <h1>{user?.name || 'Unknown User'}</h1>
      {loading && <p>Loading...</p>}
    </div>
  );
});".

Definition mockResult : AnalysisResult :=
  mkResult
    "Found 3 issues: 1 critical security vulnerability, 1 performance issue, and 1 potential bug. Recommended fixes provided."
    [ mkProblem critical "XSS Vulnerability"
        "Unsafe use of dangerouslySetInnerHTML with user data"
        (Some 23%Z) "Use safe text rendering instead of HTML injection";
      mkProblem warning "Memory Leak Risk"
        "useEffect missing cleanup function"
        (Some 15%Z) "Add cleanup function and dependency array";
      mkProblem info "Performance Optimization"
        "Consider using React.memo for this component"
        (Some 8%Z) "Wrap component with React.memo to prevent unnecessary re-renders" ]
    mockFixes
    94%Z 1%Z 1%Z 1%Z.

Definition simulateAnalysis : M AnalysisResult :=
  for_of progressSteps
    (fun step => sleep 800 ;; setProgress (step_progress step)) ;;
  ret mockResult.

(** *** [handleAnalyze] *)
Definition noCodeToast : Toast :=
  mkToast "No code to analyze" "Please paste code or upload a file first." destructive.

Definition completeToast (result : AnalysisResult) : Toast :=
  mkToast "Analysis complete!"
          ("Found " +:+ show (Z.of_nat (length (problems result)))
           +:+ " issues with " +:+ show (confidence result) +:+ "% confidence.")
          default.

Definition failedToast : Toast :=
  mkToast "Analysis failed" "Something went wrong. Please try again." destructive.

(** The handler, with the step it awaits inside [try] as a parameter;
    the page passes [simulateAnalysis].  The handler is taken as one
    step: what the user does while it awaits is not interleaved. *)
Definition handleAnalyze_with (analysis : M AnalysisResult) : M unit :=
  c <- get code ;;
  if negb (truthy (trim c)) then
    toast noCodeToast
  else
    setIsAnalyzing true ;;
    setProgress 0 ;;
    setAnalysisResult None ;;
    try_catch_finally
      (result <- analysis ;;
       setAnalysisResult (Some result) ;;
       toast (completeToast result))
      (fun _ => toast failedToast)
      (setIsAnalyzing false).

Definition handleAnalyze : M unit := handleAnalyze_with simulateAnalysis.

(** The states that [handleAnalyze] goes through on code that is not
    blank: after the three writes before [try]; after [catch] and
    [finally], from the state the awaited step threw in; after the body
    of [try] and [finally], from the state the step returned in. *)
Definition analysisStarted (st : State) : State :=
  mkState (code st) (language st) true 0 None (uploadedFile st) (readers st)
          (log st ++ [ProgressShown 0]).

Definition analysisFailed (st1 : State) : State :=
  mkState (code st1) (language st1) false (progress st1) (analysisResult st1)
          (uploadedFile st1) (readers st1) (log st1 ++ [ShowToast failedToast]).

Definition analysisDone (result : AnalysisResult) (st1 : State) : State :=
  mkState (code st1) (language st1) false (progress st1) (Some result)
          (uploadedFile st1) (readers st1)
          (log st1 ++ [ShowToast (completeToast result)]).

(** *** [copyToClipboard] and [downloadPatch] *)
Definition copiedToast : Toast :=
  mkToast "Copied to clipboard" "Text has been copied to your clipboard." default.

Definition copyToClipboard (text : string) : M unit :=
  emit (ClipboardWrite text) ;;
  toast copiedToast.

Definition downloadPatch : M unit :=
  r <- get analysisResult ;;
  match r with
  | None => ret tt
  | Some result =>
      f <- get uploadedFile ;;
      l <- get language ;;
      let base := match f with
                  | Some file => if truthy (name file) then name file else "code"
                  | None => "code"
                  end in
      emit (Download (base +:+ "_fixed." +:+ l) (fixes result))
  end.

(** *** The results card *)
(** The [TabsTrigger]s that the results card renders, each with its
    value and its label; the [Tabs] element is under
    [analysisResult &&]. *)
Definition resultsTabs (st : State) : list (string * string) :=
  match analysisResult st with
  | Some _ => [("summary", "Summary"); ("problems", "Issues"); ("fixes", "Fixes")]
  | None => []
  end.

(** A step that rejects, as the request to the analysis API that the
    comment in [handleAnalyze] announces could; it exercises [catch]. *)
Definition rejectingAnalysis : M AnalysisResult :=
  sleep 800 ;;
  setProgress 20 ;;
  throw "TypeError: Failed to fetch".

(** The values of the [SelectItem]s of the language select, in the order
    they are listed. *)
Definition languageOptions : list string :=
  ["javascript"; "typescript"; "python"; "java"; "cpp"; "c"; "php"; "ruby";
   "go"; "rust"].

(** The two copy buttons sit inside the tabs: they exist when there is
    a result, and copy its [fixes]. *)
Definition copyClick : M unit :=
  r <- get analysisResult ;;
  match r with
  | Some result => copyToClipboard (fixes result)
  | None => ret tt
  end.

End Analyze.

(** ** The header: [src/components/Header.tsx] *)
Module Header.
Import Analyze.

Definition signedOutToast : Toast :=
  mkToast "Signed out successfully" "You've been signed out of your account." default.

Definition signOutErrorToast : Toast :=
  mkToast "Error signing out" "Something went wrong. Please try again." destructive.

(** [signOut] comes from the authentication context. *)
Definition handleSignOut (signOut : M unit) : M unit :=
  try_catch
    (signOut ;;
     toast signedOutToast ;;
     emit (Navigate "/"))
    (fun _ => toast signOutErrorToast).

End Header.

(** ** What the user can do on the Analyze page *)
Module Page.
Import Analyze.

(** The events of the page and of the header it renders.  [SignOutClick]
    says whether the [signOut] of the authentication context rejects. *)
Inductive event :=
| FileInputChange (files : list File)
| ReaderLoad (i : nat)
| CodeChange (value : string)
| LanguageChange (value : string)
| AnalyzeClick
| CopyClick
| DownloadClick
| SignOutClick (rejects : bool).

Definition signOut (rejects : bool) : M unit :=
  if rejects then throw "signOut" else ret tt.

Section WithAnalysis.
(** The step that [handleAnalyze] awaits. *)
Variable analysis : M AnalysisResult.

Definition handle (e : event) : M unit :=
  match e with
  | FileInputChange files => handleFileUpload files
  | ReaderLoad i => fire_reader i
  | CodeChange value => setCode value
  | LanguageChange value => setLanguage value
  | AnalyzeClick => handleAnalyze_with analysis
  | CopyClick => copyClick
  | DownloadClick => downloadPatch
  | SignOutClick rejects => Header.handleSignOut (signOut rejects)
  end.

Definition run (es : list event) (st : State) : State :=
  fold_left (fun s e => exec (handle e) s) es st.
End WithAnalysis.

(** The toasts of a log, in the order they were shown. *)
Definition toasts (l : list effect) : list Toast :=
  omap (fun e => match e with ShowToast t => Some t | _ => None end) l.

(** The values the progress bar was given, in order. *)
Definition progressValues (l : list effect) : list N :=
  omap (fun e => match e with ProgressShown p => Some p | _ => None end) l.

Definition is_destructive (t : Toast) : bool :=
  match variant t with destructive => true | default => false end.

(** An awaited step that stays within what [simulateAnalysis] touches:
    it may write the progress cell, set timers and log progress, and
    leaves every other cell, the started readers and the toasts alone. *)
Definition progress_only (analysis : M AnalysisResult) : Prop :=
  forall st,
    let st' := snd (analysis st) in
    code st' = code st /\ language st' = language st /\
    isAnalyzing st' = isAnalyzing st /\
    analysisResult st' = analysisResult st /\
    uploadedFile st' = uploadedFile st /\
    readers st' = readers st /\
    toasts (log st') = toasts (log st).

(** The titles of the destructive toasts in the sources. *)
Definition destructiveTitles : list string :=
  ["Invalid file type"; "File too large"; "No code to analyze";
   "Analysis failed"; "Error signing out"].

(** A toast that, if destructive, has one of those titles. *)
Definition toast_allowed (t : Toast) : Prop :=
  is_destructive t = true -> title t ∈ destructiveTitles.

(** The three notices that the specification names. *)
Definition namedTitles : list string :=
  ["Invalid file type"; "File too large"; "Analysis failed"].

(** The language select only offers its items: an event that changes the
    language carries one of [languageOptions]. *)
Definition selectable (e : event) : Prop :=
  match e with
  | LanguageChange value => value ∈ languageOptions
  | _ => True
  end.

(** A file that passes both checks of [handleFileUpload]. *)
Definition passesChecks (file : File) : Prop :=
  fileExtension file ∈ allowedTypes /\ size file <= maxUpload.

(** What is kept about uploads: the file shown as uploaded passed both
    checks, and every reader still to fire was started for an allowed
    extension. *)
Definition uploadsChecked (st : State) : Prop :=
  (forall file, uploadedFile st = Some file -> passesChecks file) /\
  Forall (fun r => fst r ∈ allowedTypes) (readers st).

(** The text that an effect hands to the clipboard or to a download. *)
Definition exportedText (e : effect) : option string :=
  match e with
  | ClipboardWrite text => Some text
  | Download _ text => Some text
  | _ => None
  end.

End Page.

(** ** The Dropzone: [src/components/ui/code-block.tsx] *)
Module Dropzone.
Import JS.

Record Props := mkProps {
  accept : list (string * list string);
  maxFiles : N;
  maxSize : N;
  disabled : bool
}.

(** The default values of the destructured props. *)
Definition defaultProps : Props :=
  mkProps
    [ ("text/*", [".js"; ".ts"; ".jsx"; ".tsx"; ".py"; ".java"; ".cpp"; ".c";
                  ".php"; ".rb"; ".go"; ".rs"]);
      ("application/pdf", [".pdf"]) ]
    1
    (10 * 1024 * 1024)
    false.

(** [useDropzone] belongs to react-dropzone, outside the repository; what
    it does with the props is taken from the library and the two it
    relies on, file-selector and attr-accept.

    The [accept] map becomes the list of its keys, each followed by its
    extensions.  (The library drops an item that is neither a MIME type
    nor an extension; the default map has none.) *)
Definition acceptAttr (p : Props) : list string :=
  flat_map (fun entry => fst entry :: snd entry) (accept p).


(** [t.replace(/\/.*$/, '')]: a MIME type up to its first slash. *)
Definition baseMimeType (t : string) : string :=
  match split "/" t with
  | h :: _ => h
  | [] => t
  end.

(** attr-accept on one item of the list: an item that starts with a dot
    is an extension, which the name must end with; an item that ends in
    [/*] stands for every type with its base; another item is a type.
    Letter case is ignored. *)
Definition typeMatches (file : Analyze.File) (item : string) : bool :=
  let validType := toLowerCase (trim item) in
  if startsWith validType "." then
    endsWith (toLowerCase (Analyze.name file)) validType
  else if endsWith validType "/*" then
    String.eqb (baseMimeType (toLowerCase (Analyze.type file)))
               (baseMimeType validType)
  else String.eqb (toLowerCase (Analyze.type file)) validType.

(** [fileAccepted]: a file of type [application/x-moz-file] passes; so
    does every file when the list is empty. *)
Definition fileAccepted (file : Analyze.File) (attr : list string) : bool :=
  String.eqb (Analyze.type file) "application/x-moz-file"
  || match attr with
     | [] => true
     | _ => existsb (typeMatches file) attr
     end.

(** [fileMatchSize], with the default [minSize] of 0. *)
Definition fileMatchSize (file : Analyze.File) (maxSize : N) : bool :=
  Analyze.size file <=? maxSize.

(** Whether the drop zone takes [file], one file, as it stands. *)
Definition accepts (p : Props) (file : Analyze.File) : bool :=
  negb (disabled p)
  && fileAccepted file (acceptAttr p)
  && fileMatchSize file (maxSize p).


(** The extensions that the default [accept] map lists. *)
Definition defaultExtensions : list string :=
  [".js"; ".ts"; ".jsx"; ".tsx"; ".py"; ".java"; ".cpp"; ".c"; ".php"; ".rb";
   ".go"; ".rs"; ".pdf"].

End Dropzone.

(** ** The Dashboard: second component of [src/pages/Analyze.tsx] *)
Module Dashboard.

Inductive Status := completed | analyzing | failed.

(** A JavaScript number is an IEEE 754 binary64 value: [spec_float] of the
    Standard Library, at 53 bits of precision and exponents up to 1024.
    Its operations round to nearest, ties to even. *)
Abbreviation number := spec_float.

(** A whole number as a number (exact below [2^53]): what a literal and
    [analyses.length] are. *)
Definition fromZ (z : Z) : number := binary_normalize 53 1024 z 0 false.

(** [a + b] and [a / b]. *)
Definition add (a b : number) : number := SFadd 53 1024 a b.
Definition div (a b : number) : number := SFdiv 53 1024 a b.

Record Analysis := mkAnalysis {
  id : string;
  title : string;
  language : string;
  status : Status;
  createdAt : string;
  issuesFound : number;
  confidence : number
}.

Definition mockAnalyses : list Analysis :=
  [ mkAnalysis "1" "UserProfile.tsx" "TypeScript" completed
               "2024-01-15T10:30:00Z" (fromZ 4) (fromZ 95);
    mkAnalysis "2" "auth-service.js" "JavaScript" completed
               "2024-01-14T15:45:00Z" (fromZ 2) (fromZ 87);
    mkAnalysis "3" "database-utils.py" "Python" analyzing
               "2024-01-14T09:20:00Z" (fromZ 0) (fromZ 0) ].

(** [Math.round]: the integer nearest to [x], a half rounded towards
    positive infinity; a result of zero keeps the sign of [x].  A finite
    number with an exponent that is not negative is an integer already.
    For [x = m * 2^(-p)] the integer is the floor of
    [(2 * m + 2^p) / (2 * 2^p)], computed exactly. *)
Definition Math_round (x : number) : number :=
  match x with
  | S754_finite s m (Zneg p) =>
      let d := Z.pow_pos 2 p in
      let k := ((2 * cond_Zopp s (Zpos m) + d) / (2 * d))%Z in
      if (k =? 0)%Z then S754_zero s else fromZ k
  | _ => x
  end.

(** [x || y] on numbers: [NaN] and the two zeros are falsy. *)
Definition or_else (x y : number) : number :=
  match x with
  | S754_nan | S754_zero _ => y
  | _ => x
  end.

(** [analyses.reduce((sum, a) => sum + a.confidence, 0)] *)
Definition sumConfidence (analyses : list Analysis) : number :=
  fold_left (fun sum a => add sum (confidence a)) analyses (fromZ 0).

(** [analyses.reduce((sum, a) => sum + a.issuesFound, 0)] *)
Definition sumIssues (analyses : list Analysis) : number :=
  fold_left (fun sum a => add sum (issuesFound a)) analyses (fromZ 0).

(** [Math.round(sum / analyses.length) || 0] *)
Definition avgConfidence (analyses : list Analysis) : number :=
  or_else
    (Math_round (div (sumConfidence analyses)
                     (fromZ (Z.of_nat (length analyses)))))
    (fromZ 0).

(** The rational that a finite number stands for. *)
Definition exactValue (x : number) : option Q :=
  match x with
  | S754_zero _ => Some 0%Q
  | S754_finite s m (Zneg p) => Some (Qmake (cond_Zopp s (Zpos m)) (Pos.pow 2 p))
  | S754_finite s m e => Some (inject_Z (cond_Zopp s (Zpos m) * 2 ^ e))
  | _ => None
  end.

(** The sum of the confidence fields, taken exactly. *)
Fixpoint exactSum (analyses : list Analysis) : option Q :=
  match analyses with
  | [] => Some 0%Q
  | a :: rest =>
      match exactValue (confidence a), exactSum rest with
      | Some v, Some s => Some (v + s)%Q
      | _, _ => None
      end
  end.

(** The rounded mean of the confidence fields, as the words say it: the
    exact sum over the number of entries, rounded to the nearest integer,
    a half rounded up. *)
Definition roundedMean (analyses : list Analysis) : option Z :=
  match exactSum analyses with
  | Some s => Some (Qfloor (s / inject_Z (Z.of_nat (length analyses)) + (1 # 2))%Q)
  | None => None
  end.

Local Open Scope Z_scope.

(** A record of the right shift with no bit lost. *)
Definition rec0 (m : Z) : shr_record := {| shr_m := m; shr_r := false; shr_s := false |}.

(** The canonical binary64 form of a whole number [0 < z < 2^53], of sign
    [s]: 53 bits of mantissa. *)
Definition canon (s : bool) (z : positive) : number :=
  S754_finite s (Z.to_pos (Zpos z * 2 ^ (53 - Zpos (digits2_pos z))))
              (Zpos (digits2_pos z) - 53).

(** What a location says of a remainder [r] of a division by [mn]. *)
Definition loc_ok (l : location) (r mn : Z) : Prop :=
  match l with
  | loc_Exact => r = 0
  | loc_Inexact Lt => 0 < r /\ 2 * r < mn
  | loc_Inexact Eq => 0 < r /\ 2 * r = mn
  | loc_Inexact Gt => mn < 2 * r
  end.

(** A confidence that is a whole percentage. *)
Definition wholePercent (a : Analysis) : Prop :=
  exists c : Z, 0 <= c <= 100 /\ confidence a = fromZ c.

Local Close Scope Z_scope.

(** [user.email?.split('@')[0]], the name in the welcome line (and in the
    header): [undefined] when there is no e-mail. *)
Definition displayName (email : option string) : option string :=
  match email with
  | Some e => head (JS.split "@" e)
  | None => None
  end.

End Dashboard.

(** ** The code block: first component of [src/components/ui/code-block.tsx] *)
Module CodeBlock.

(** The [copied] cell, the [setTimeout] callbacks that are still to run
    (each is [() => setCopied(false)], kept with its delay), what was
    written to the clipboard and what was printed with [console.error]. *)
Record State := mkState {
  copied : bool;
  timers : list N;
  clipboard : list string;
  console : list string
}.

Definition initial : State := mkState false [] [] [].

(** [copyToClipboard]; [rejects] says whether
    [navigator.clipboard.writeText] rejects. *)
Definition copyToClipboard (code : string) (rejects : bool) (st : State) : State :=
  if rejects then
    mkState (copied st) (timers st) (clipboard st)
            (console st ++ ["Failed to copy text:"])
  else
    mkState true (timers st ++ [2000]) (clipboard st ++ [code]) (console st).

(** The [i]-th pending callback runs: [setCopied(false)]. *)
Definition timeout (i : nat) (st : State) : State :=
  match timers st !! i with
  | Some _ => mkState false (delete i (timers st)) (clipboard st) (console st)
  | None => st
  end.

Inductive event :=
| CopyClick (rejects : bool)
| Timeout (i : nat).

Section WithCode.
(** The [code] prop. *)
Variable code : string.

Definition handle (e : event) (st : State) : State :=
  match e with
  | CopyClick rejects => copyToClipboard code rejects st
  | Timeout i => timeout i st
  end.

Definition run (es : list event) (st : State) : State :=
  fold_left (fun s e => handle e s) es st.
End WithCode.

End CodeBlock.

(** * Properties *)

Local Open Scope list_scope.

(** ** Strings *)
Section StringFacts.
Import JS.

Lemma includes_elem_of (a : list string) (x : string) :
  includes a x = true <-> x ∈ a.
Proof.
  unfold includes. rewrite existsb_exists, list_elem_of_In. split.
  - intros (y & Hy & Heq). apply String.eqb_eq in Heq. now subst.
  - intros Hx. exists x. split; [exact Hx | apply String.eqb_refl].
Qed.

Lemma includes_not_elem_of (a : list string) (x : string) :
  includes a x = false <-> x ∉ a.
Proof.
  rewrite <- includes_elem_of. destruct (includes a x); split; congruence.
Qed.

Lemma toLowerCase_app (s t : string) :
  toLowerCase (s +:+ t) = toLowerCase s +:+ toLowerCase t.
Proof.
  induction s as [|c s IH]; simpl; [reflexivity | now rewrite IH].
Qed.

Lemma split_nonempty (sep : ascii) (s : string) : split sep s <> [].
Proof.
  induction s as [|c s IH]; simpl; [discriminate |].
  destruct (Ascii.eqb c sep); [discriminate |].
  destruct (split sep s); [contradiction | discriminate].
Qed.

(** A string without the separator splits into itself. *)
Lemma split_whole (sep : ascii) (s : string) :
  contains sep s = false -> split sep s = [s].
Proof.
  induction s as [|c s IH]; simpl; [reflexivity |].
  intros H. apply orb_false_iff in H as [Hc Hs].
  now rewrite Hc, (IH Hs).
Qed.

(** With a separator in the string, the array has two elements at
    least, and its last one is what follows the last separator. *)
Lemma split_suffix (sep : ascii) (s : string) :
  contains sep s = true ->
  exists stem e h t,
    split sep s = h :: t /\ last t = Some e /\
    s = stem +:+ String sep e /\ contains sep e = false.
Proof.
  induction s as [|c s IH]; simpl; [discriminate |].
  intros H. destruct (contains sep s) eqn:Hs.
  - destruct (IH eq_refl) as (stem & e & h & t & Hsplit & Hlast & Heq & He).
    exists (String c stem), e.
    destruct (Ascii.eqb c sep).
    + exists EmptyString, (h :: t). rewrite Hsplit, last_cons, Hlast.
      repeat split; [now rewrite Heq at 1 | exact He].
    + exists (String c h), t. rewrite Hsplit.
      repeat split; [exact Hlast | now rewrite Heq at 1 | exact He].
  - rewrite orb_false_r in H. rewrite H.
    apply Ascii.eqb_eq in H. subst c.
    exists EmptyString, s, EmptyString, [s].
    rewrite (split_whole sep s Hs). repeat split. exact Hs.
Qed.

Lemma pop_split_suffix (sep : ascii) (s : string) :
  contains sep s = true ->
  exists stem e,
    pop (split sep s) = Some e /\ s = stem +:+ String sep e /\
    contains sep e = false.
Proof.
  intros H. destruct (split_suffix sep s H) as (stem & e & h & t & Hs & Hl & Heq & He).
  exists stem, e. unfold pop. rewrite Hs, last_cons, Hl. auto.
Qed.

End StringFacts.

(** ** The file input *)
Section Upload.
Import JS Analyze Page.

Lemma handleFileUpload_cases (st : State) (file : File) (rest : list File) :
  handleFileUpload (file :: rest) st =
    if negb (includes allowedTypes (fileExtension file)) then
      (Returned tt, logged (ShowToast invalidTypeToast) st)
    else if maxUpload <? size file then
      (Returned tt, logged (ShowToast tooLargeToast) st)
    else (Returned tt, uploadStarted file st).
Proof.
  unfold handleFileUpload. simpl.
  destruct (negb _); [reflexivity |].
  destruct (maxUpload <? size file); reflexivity.
Qed.

Lemma extname_suffix (stem e : string) :
  contains "." e = false -> extname (stem +:+ String "." e) = String "." e.
Proof.
  intros He. induction stem as [| c stem IH]; simpl.
  - rewrite He. reflexivity.
  - assert (Hc : contains "." (stem +:+ String "." e) = true).
    { clear IH. induction stem as [| d stem IH]; simpl; [reflexivity |].
      rewrite IH. apply orb_true_r. }
    rewrite Hc. exact IH.
Qed.

(** For a name with a dot, the extension that the handler computes is
    the extension of the name, in lower case. *)
Lemma fileExtension_extname (file : File) :
  contains "." (name file) = true ->
  fileExtension file = toLowerCase (extname (name file)).
Proof.
  intros Hdot.
  destruct (pop_split_suffix "." (name file) Hdot) as (stem & e & Hpop & Hname & He).
  unfold fileExtension. rewrite Hpop, Hname, (extname_suffix stem e He). reflexivity.
Qed.

(** C2 fails on a file without extension whose name spells an allowed
    extension.  The file named [py] has no extension, so its extension is
    not in the allow-list; the handler, which takes the text after the
    last dot or else the whole name, reads [.py]: it shows no toast, makes
    the file [uploadedFile] and starts to read it. *)
Lemma C2_dotless_name_accepted :
  let file := mkFile "py" 20 "" "print(1)" in
  let st' := exec (handleFileUpload [file]) initial in
  extname (name file) = "" /\
  (toLowerCase (extname (name file)) ∉ allowedTypes) /\
  fileExtension file = ".py" /\
  st' = uploadStarted file initial /\
  toasts (log st') = [] /\
  uploadedFile st' = Some file /\
  uploadedFile st' <> uploadedFile initial /\
  readers st' = [(".py", "print(1)")].
Proof.
  intros file st'. repeat split; try reflexivity.
  - apply includes_not_elem_of. reflexivity.
  - discriminate.
Qed.

(** A file whose name has a dot and whose extension, letter case
    ignored, is not in the allow-list gets the destructive toast titled
    "Invalid file type", and the handler returns with every cell of the
    state as it was: [code], [uploadedFile] and [language] keep their
    values, no reader is started, and the toast is the only effect
    logged. *)
Theorem handleFileUpload_wrong_extension (st : State) (file : File) (rest : list File) :
  contains "." (name file) = true ->
  toLowerCase (extname (name file)) ∉ allowedTypes ->
  let st' := exec (handleFileUpload (file :: rest)) st in
  st' = logged (ShowToast invalidTypeToast) st /\
  title invalidTypeToast = "Invalid file type" /\
  variant invalidTypeToast = destructive /\
  log st' = log st ++ [ShowToast invalidTypeToast] /\
  code st' = code st /\ uploadedFile st' = uploadedFile st /\
  language st' = language st /\ readers st' = readers st.
Proof.
  intros Hdot Hext st'. subst st'. unfold exec.
  rewrite handleFileUpload_cases.
  rewrite <- (fileExtension_extname file Hdot) in Hext.
  apply includes_not_elem_of in Hext. rewrite Hext. simpl.
  repeat split; reflexivity.
Qed.

Lemma handleFileUpload_wrong_extension_witness :
  let file := mkFile "js.tar.GZ" 12 "application/gzip" "" in
  exec (handleFileUpload [file]) initial = logged (ShowToast invalidTypeToast) initial.
Proof.
  intros file.
  refine (proj1 (handleFileUpload_wrong_extension initial file [] _ _)).
  - reflexivity.
  - apply includes_not_elem_of. vm_compute. reflexivity.
Defined.

(** C3: a file with an allowed extension and more than 10 * 1024 * 1024
    bytes gets the "File too large" toast and the handler returns with
    every cell of the state as it was; a file of that size or less
    passes the check: it becomes [uploadedFile] and its reader is
    started, with no toast. *)
Theorem C3_size_cap (st : State) (file : File) (rest : list File) :
  fileExtension file ∈ allowedTypes ->
  let st' := exec (handleFileUpload (file :: rest)) st in
  maxUpload = 10485760 /\
  (10 * 1024 * 1024 < size file ->
     st' = logged (ShowToast tooLargeToast) st /\
     title tooLargeToast = "File too large" /\
     code st' = code st /\ uploadedFile st' = uploadedFile st /\
     language st' = language st /\ readers st' = readers st) /\
  (size file <= 10 * 1024 * 1024 ->
     st' = uploadStarted file st /\
     uploadedFile st' = Some file /\ log st' = log st).
Proof.
  intros Hext st'. subst st'. unfold exec.
  rewrite handleFileUpload_cases.
  apply includes_elem_of in Hext. rewrite Hext. simpl negb. cbv iota.
  change (10 * 1024 * 1024) with maxUpload.
  split; [reflexivity |]. split; intros Hsize.
  - apply N.ltb_lt in Hsize. rewrite Hsize. repeat split; reflexivity.
  - destruct (N.ltb_spec maxUpload (size file)) as [Hlt | _]; [lia |].
    repeat split; reflexivity.
Qed.

Lemma C3_witness :
  let big := mkFile "bundle.js" 10485761 "text/javascript" "" in
  let small := mkFile "main.py" 10485760 "text/x-python" "print(1)" in
  exec (handleFileUpload [big]) initial = logged (ShowToast tooLargeToast) initial /\
  exec (handleFileUpload [small]) initial = uploadStarted small initial.
Proof.
  intros big small. split.
  - assert (Hext : fileExtension big ∈ allowedTypes)
      by (apply includes_elem_of; vm_compute; reflexivity).
    refine (proj1 (proj1 (proj2 (C3_size_cap initial big [] Hext)) _)).
    vm_compute. reflexivity.
  - assert (Hext : fileExtension small ∈ allowedTypes)
      by (apply includes_elem_of; vm_compute; reflexivity).
    refine (proj1 (proj2 (proj2 (C3_size_cap initial small [] Hext)) _)).
    vm_compute. discriminate.
Defined.


(** What the list of the default [accept] map lets through. *)
Lemma default_attr_matches (f : File) :
  existsb (Dropzone.typeMatches f) (Dropzone.acceptAttr Dropzone.defaultProps) = true <->
  Dropzone.baseMimeType (toLowerCase (type f)) = "text" \/
  toLowerCase (type f) = "application/pdf" \/
  exists e, e ∈ Dropzone.defaultExtensions /\ endsWith (toLowerCase (name f)) e = true.
Proof.
  rewrite existsb_exists. split.
  - intros (item & Hin & Hm). cbn in Hin.
    repeat (destruct Hin as [<- | Hin];
            [first [ left; apply String.eqb_eq; exact Hm
                   | right; left; apply String.eqb_eq; exact Hm
                   | right; right; eexists; split; [| exact Hm];
                     apply includes_elem_of; reflexivity ] |]).
    destruct Hin.
  - intros [Hbase | [Hpdf | (e & He & Hends)]].
    + exists "text/*". split; [cbn; tauto |]. apply String.eqb_eq in Hbase. exact Hbase.
    + exists "application/pdf". split; [cbn; tauto |]. apply String.eqb_eq in Hpdf. exact Hpdf.
    + exists e. apply list_elem_of_In in He. split.
      * cbn in He |- *. tauto.
      * cbn in He.
        repeat (destruct He as [<- | He]; [exact Hends |]). destruct He.
Qed.

Lemma accepts_default (f : File) :
  Dropzone.accepts Dropzone.defaultProps f = true <->
  size f <= 10 * 1024 * 1024 /\
  (type f = "application/x-moz-file" \/
   Dropzone.baseMimeType (toLowerCase (type f)) = "text" \/
   toLowerCase (type f) = "application/pdf" \/
   exists e, e ∈ Dropzone.defaultExtensions /\ endsWith (toLowerCase (name f)) e = true).
Proof.
  unfold Dropzone.accepts, Dropzone.fileAccepted, Dropzone.fileMatchSize.
  cbn [Dropzone.disabled Dropzone.maxSize Dropzone.defaultProps negb andb].
  rewrite andb_true_iff, orb_true_iff, N.leb_le, String.eqb_eq.
  change (match Dropzone.acceptAttr Dropzone.defaultProps with
          | [] => true
          | _ :: _ => existsb (Dropzone.typeMatches f)
                        (Dropzone.acceptAttr Dropzone.defaultProps)
          end)
    with (existsb (Dropzone.typeMatches f) (Dropzone.acceptAttr Dropzone.defaultProps)).
  rewrite default_attr_matches. tauto.
Qed.




(** Every key that an allowed extension gives has a language in
    [langMap], and that language is a truthy string. *)
Lemma langMap_total (e : string) :
  e ∈ allowedTypes ->
  exists lang, langMap !! substring1 e = Some lang /\ truthy lang = true.
Proof.
  intros He.
  assert (Hall : forallb (fun e => match langMap !! substring1 e with
                                   | Some l => truthy l
                                   | None => false
                                   end) allowedTypes = true)
    by (vm_compute; reflexivity).
  rewrite forallb_forall in Hall.
  specialize (Hall e (proj1 (list_elem_of_In _ _) He)).
  destruct (langMap !! substring1 e) as [l|]; [| discriminate].
  exists l. split; [reflexivity | exact Hall].
Qed.

Lemma reader_onload_language (fileExtension content lang : string) (st : State) :
  langMap !! substring1 fileExtension = Some lang -> truthy lang = true ->
  exec (reader_onload fileExtension content) st =
    mkState content lang (isAnalyzing st) (progress st) (analysisResult st)
            (uploadedFile st) (readers st) (log st).
Proof.
  intros Hl Ht. unfold exec, reader_onload, bind, setCode, setLanguage, modify.
  cbn beta iota. rewrite Hl, Ht. reflexivity.
Qed.

(** C9: every extension of [allowedTypes] has an entry in [langMap]; so
    for a file that passes the type check and the size check, the
    handler starts a reader, and when that reader fires, in whatever
    state the page then is, [language] becomes the language that
    [langMap] gives for the file's extension; [jsx] and [js] both give
    [javascript]. *)
Theorem C9_language_detected :
  (forall e : string, e ∈ allowedTypes -> is_Some (langMap !! substring1 e)) /\
  (forall (st : State) (file : File) (rest : list File),
      fileExtension file ∈ allowedTypes ->
      size file <= 10 * 1024 * 1024 ->
      exists lang,
        langMap !! substring1 (fileExtension file) = Some lang /\
        let st1 := exec (handleFileUpload (file :: rest)) st in
        readers st1 = readers st ++ [(fileExtension file, content file)] /\
        (forall st2 : State,
            language (exec (reader_onload (fileExtension file) (content file)) st2) = lang /\
            code (exec (reader_onload (fileExtension file) (content file)) st2) = content file) /\
        language (exec (fire_reader (length (readers st))) st1) = lang) /\
  langMap !! "jsx" = Some "javascript" /\
  langMap !! "js" = Some "javascript".
Proof.
  split; [| split; [| split; vm_compute; reflexivity]].
  - intros e He. destruct (langMap_total e He) as (l & Hl & _). now exists l.
  - intros st file rest Hext Hsize.
    destruct (langMap_total _ Hext) as (lang & Hl & Ht).
    exists lang. split; [exact Hl |].
    assert (Hst1 : exec (handleFileUpload (file :: rest)) st = uploadStarted file st).
    { unfold exec. rewrite handleFileUpload_cases.
      apply includes_elem_of in Hext. rewrite Hext. simpl negb. cbv iota.
      change (10 * 1024 * 1024) with maxUpload in Hsize.
      destruct (N.ltb_spec maxUpload (size file)) as [Hlt | _]; [lia | reflexivity]. }
    cbv zeta. rewrite Hst1. split; [reflexivity |]. split.
    + intros st2. rewrite (reader_onload_language _ _ lang st2 Hl Ht). split; reflexivity.
    + unfold exec, fire_reader, bind, get. cbn beta iota.
      change (readers (uploadStarted file st))
        with (readers st ++ [(fileExtension file, content file)]).
      rewrite list_lookup_middle by reflexivity.
      unfold modify. cbn beta iota.
      match goal with
      | |- language (snd (reader_onload ?x ?c ?s)) = _ =>
          change (snd (reader_onload x c s)) with (exec (reader_onload x c) s);
          rewrite (reader_onload_language x c lang s Hl Ht)
      end.
      reflexivity.
Qed.

Lemma C9_witness :
  let file := mkFile "App.jsx" 512 "text/jsx" "export default App" in
  language (exec (fire_reader 0) (exec (handleFileUpload [file]) initial)) = "javascript".
Proof.
  intros file.
  assert (Hext : fileExtension file ∈ allowedTypes)
    by (apply includes_elem_of; vm_compute; reflexivity).
  assert (Hsize : size file <= 10 * 1024 * 1024) by (vm_compute; discriminate).
  destruct (proj1 (proj2 C9_language_detected) initial file [] Hext Hsize)
    as (lang & Hl & _ & _ & Hfire).
  assert (Hlang : lang = "javascript").
  { assert (Hjsx : langMap !! substring1 (fileExtension file) = Some "javascript")
      by (vm_compute; reflexivity).
    congruence. }
  rewrite <- Hlang. exact Hfire.
Defined.

End Upload.

(** ** The simulated analysis *)
Section Analysis.
Import JS Analyze Page.

Lemma truthy_nonempty (s : string) : truthy s = true <-> s <> "".
Proof. destruct s; simpl; split; congruence. Qed.

Lemma toasts_app (l l' : list effect) : toasts (l ++ l') = toasts l ++ toasts l'.
Proof. apply omap_app. Qed.

Lemma simulateAnalysis_run (st : State) :
  simulateAnalysis st =
    (Returned mockResult,
     mkState (code st) (language st) (isAnalyzing st) 100 (analysisResult st)
             (uploadedFile st) (readers st)
             (log st ++ [Timer 800; ProgressShown 20; Timer 800; ProgressShown 40;
                         Timer 800; ProgressShown 60; Timer 800; ProgressShown 80;
                         Timer 800; ProgressShown 100])).
Proof.
  unfold simulateAnalysis, bind, for_of, progressSteps, sleep, emit, setProgress,
    modify, ret, logged. cbn.
  repeat rewrite <- app_assoc. reflexivity.
Qed.

Lemma handleAnalyze_with_cases (analysis : M AnalysisResult) (st : State) :
  handleAnalyze_with analysis st =
    if truthy (trim (code st)) then
      match analysis (analysisStarted st) with
      | (Returned r, st1) => (Returned tt, analysisDone r st1)
      | (Thrown _, st1) => (Returned tt, analysisFailed st1)
      end
    else (Returned tt, logged (ShowToast noCodeToast) st).
Proof.
  unfold handleAnalyze_with, bind, get. cbn beta iota.
  destruct (truthy (trim (code st))); [| reflexivity].
  unfold try_catch_finally, setIsAnalyzing, setProgress, setAnalysisResult, modify,
    bind, analysisStarted.
  cbn -[completeToast].
  destruct (analysis _) as [[r | e] st1]; reflexivity.
Qed.

Lemma simulateAnalysis_progress_only : progress_only simulateAnalysis.
Proof.
  intros st st'. subst st'. rewrite simulateAnalysis_run. cbn [snd].
  repeat split. cbn [log]. rewrite toasts_app. cbn. apply app_nil_r.
Qed.

Lemma rejectingAnalysis_progress_only : progress_only rejectingAnalysis.
Proof.
  intros st st'. subst st'. cbn. repeat split.
  rewrite !toasts_app. cbn. now rewrite !app_nil_r.
Qed.

(** C5: a run of [simulateAnalysis] returns, and what it logs is a timer
    of 800 ms and then a progress update, five times, with the values
    20, 40, 60, 80, 100 in that order; it leaves [progress] at 100; the
    values never go down, also counted from the 0 that [handleAnalyze]
    writes before it calls the run. *)
Theorem C5_progress_sequence (st : State) :
  let run := [Timer 800; ProgressShown 20; Timer 800; ProgressShown 40;
              Timer 800; ProgressShown 60; Timer 800; ProgressShown 80;
              Timer 800; ProgressShown 100] in
  fst (simulateAnalysis st) = Returned mockResult /\
  log (exec simulateAnalysis st) = log st ++ run /\
  progressValues run = [20; 40; 60; 80; 100] /\
  length (progressValues run) = 5%nat /\
  progress (exec simulateAnalysis st) = 100 /\
  StronglySorted N.le (0 :: progressValues run) /\
  (trim (code st) <> "" ->
   log (exec handleAnalyze st)
   = log st ++ [ProgressShown 0] ++ run ++ [ShowToast (completeToast mockResult)]).
Proof.
  intros run. unfold exec. rewrite simulateAnalysis_run. cbn [fst snd log progress].
  repeat split.
  - cbn. repeat (constructor; [| repeat (constructor; [lia |]); constructor]).
    constructor.
  - intros Hcode. apply truthy_nonempty in Hcode.
    unfold handleAnalyze. rewrite handleAnalyze_with_cases, Hcode.
    rewrite simulateAnalysis_run. cbn [snd analysisDone log analysisStarted].
    repeat rewrite <- app_assoc. reflexivity.
Qed.

Lemma C5_witness :
  log (exec handleAnalyze (exec (setCode "let x = 1;") initial))
  = [ProgressShown 0; Timer 800; ProgressShown 20; Timer 800; ProgressShown 40;
     Timer 800; ProgressShown 60; Timer 800; ProgressShown 80;
     Timer 800; ProgressShown 100; ShowToast (completeToast mockResult)].
Proof.
  refine (proj2 (proj2 (proj2 (proj2 (proj2 (proj2
    (C5_progress_sequence (exec (setCode "let x = 1;") initial))))))) _).
  vm_compute. discriminate.
Defined.

(** C6: on code that is not blank, [handleAnalyze] leaves a result in
    [analysisResult], and the results card then renders three tabs,
    labelled Summary, Issues and Fixes. *)
Theorem C6_three_tabs (st : State) :
  trim (code st) <> "" ->
  let st' := exec handleAnalyze st in
  fst (handleAnalyze st) = Returned tt /\
  analysisResult st' = Some mockResult /\
  resultsTabs st' = [("summary", "Summary"); ("problems", "Issues"); ("fixes", "Fixes")] /\
  map snd (resultsTabs st') = ["Summary"; "Issues"; "Fixes"] /\
  length (resultsTabs st') = 3%nat.
Proof.
  intros Hcode st'. subst st'. apply truthy_nonempty in Hcode.
  unfold exec, handleAnalyze. rewrite handleAnalyze_with_cases, Hcode.
  rewrite simulateAnalysis_run. repeat split.
Qed.

Lemma C6_witness :
  map snd (resultsTabs (exec handleAnalyze (exec (setCode "let x = 1;") initial)))
  = ["Summary"; "Issues"; "Fixes"].
Proof.
  refine (proj1 (proj2 (proj2 (proj2
    (C6_three_tabs (exec (setCode "let x = 1;") initial) _))))).
  vm_compute. discriminate.
Defined.

(** C8: [simulateAnalysis] returns the same result from every state; in
    it the three counts add up to 3, which is the number of problems and
    the number the summary text begins with, and the confidence is 94,
    between 0 and 100. *)
Theorem C8_result_consistent :
  (forall st1 st2 : State, fst (simulateAnalysis st1) = fst (simulateAnalysis st2)) /\
  (forall st : State, fst (simulateAnalysis st) = Returned mockResult) /\
  (securityIssues mockResult + performanceIssues mockResult + bugCount mockResult = 3)%Z /\
  length (problems mockResult) = 3%nat /\
  firstNumber (summary mockResult) = Some 3 /\
  confidence mockResult = 94%Z /\
  (0 <= confidence mockResult <= 100)%Z.
Proof.
  split; [| split].
  - intros st1 st2. now rewrite !simulateAnalysis_run.
  - intros st. now rewrite simulateAnalysis_run.
  - repeat split; try reflexivity; cbn; lia.
Qed.

End Analysis.

(** ** Notifications and the failure path *)
Section Notifications.
Import JS Analyze Page.

(** The step awaited inside [try], kept within what [simulateAnalysis]
    touches. *)
Variable analysis : M AnalysisResult.
Hypothesis analysis_frame : progress_only analysis.

Lemma toasts_logged (t : Toast) (st : State) :
  toasts (log (logged (ShowToast t) st)) = toasts (log st) ++ [t].
Proof. cbn [logged log]. now rewrite toasts_app. Qed.

Lemma analysisStarted_toasts (st : State) :
  toasts (log (analysisStarted st)) = toasts (log st).
Proof. cbn [analysisStarted log]. rewrite toasts_app. apply app_nil_r. Qed.

(** C7: if the awaited step throws, the handler still returns; from the
    state the step threw in, it only shows the "Analysis failed" toast
    and clears [isAnalyzing]: the step is not run again and nothing is
    restored.  [analysisResult] is null, as it was set before [try], and
    [isAnalyzing] is false after the handler, whether the step threw or
    returned. *)
Theorem C7_failure_path (st : State) :
  trim (code st) <> "" ->
  let st' := exec (handleAnalyze_with analysis) st in
  (forall (e : string) (st1 : State),
      analysis (analysisStarted st) = (Thrown e, st1) ->
      handleAnalyze_with analysis st = (Returned tt, analysisFailed st1) /\
      log st' = log st1 ++ [ShowToast failedToast] /\
      toasts (log st') = toasts (log st) ++ [failedToast] /\
      title failedToast = "Analysis failed" /\
      analysisResult st' = None /\
      isAnalyzing st' = false) /\
  (forall (r : AnalysisResult) (st1 : State),
      analysis (analysisStarted st) = (Returned r, st1) ->
      isAnalyzing st' = false) /\
  isAnalyzing st' = false.
Proof.
  intros Hcode st'. subst st'. apply truthy_nonempty in Hcode.
  unfold exec. rewrite handleAnalyze_with_cases, Hcode.
  pose proof (analysis_frame (analysisStarted st)) as Hframe. cbv zeta in Hframe.
  destruct (analysis (analysisStarted st)) as [[r | e] st1] eqn:Hrun;
    cbn [snd] in *; (split; [| split]); try reflexivity; try discriminate.
  - intros e' st1' Heq. injection Heq as <- <-.
    destruct Hframe as (_ & _ & _ & Hres & _ & _ & Htoasts).
    repeat split.
    + cbn [analysisFailed log]. rewrite toasts_app, Htoasts, analysisStarted_toasts.
      reflexivity.
    + cbn [analysisFailed analysisResult]. rewrite Hres. reflexivity.
Qed.

Lemma reader_onload_log (fileExtension content : string) (st : State) :
  log (exec (reader_onload fileExtension content) st) = log st.
Proof.
  unfold exec, reader_onload, bind, setCode, setLanguage, modify, ret. cbn beta iota.
  destruct (langMap !! substring1 fileExtension) as [l |]; [| reflexivity].
  destruct (truthy l); reflexivity.
Qed.

(** One event adds toasts at the end of the log, and every destructive
    one among them has its title in [destructiveTitles]. *)
Lemma handle_toasts (e : event) (st : State) :
  exists ts, toasts (log (exec (handle analysis e) st)) = toasts (log st) ++ ts
             /\ Forall toast_allowed ts.
Proof.
  assert (Hin : forall t, includes destructiveTitles (title t) = true -> Forall toast_allowed [t]).
  { intros t Ht. constructor; [| constructor]. intros _. now apply includes_elem_of. }
  assert (Hdef : forall t, variant t = default -> Forall toast_allowed [t]).
  { intros t Ht. constructor; [| constructor]. unfold toast_allowed, is_destructive.
    rewrite Ht. discriminate. }
  assert (Hnil : forall l : list Toast, l = l ++ [] /\ Forall toast_allowed [])
    by (intros l; split; [now rewrite app_nil_r | constructor]).
  destruct e as [files | i | value | value | | | | rejects]; cbn [handle].
  - destruct files as [| file rest]; [exists []; apply Hnil |].
    unfold exec. rewrite handleFileUpload_cases.
    destruct (negb _); [| destruct (maxUpload <? size file)]; cbn [snd].
    + exists [invalidTypeToast]. split; [apply toasts_logged | now apply Hin].
    + exists [tooLargeToast]. split; [apply toasts_logged | now apply Hin].
    + exists []. apply Hnil.
  - exists []. unfold exec, fire_reader, bind, get. cbn beta iota.
    destruct (readers st !! i) as [[ext text] |]; [| apply Hnil].
    unfold modify. cbn beta iota.
    match goal with
    | |- context [snd (reader_onload ?x ?c ?s)] =>
        change (snd (reader_onload x c s)) with (exec (reader_onload x c) s)
    end.
    rewrite reader_onload_log. apply Hnil.
  - exists []. apply Hnil.
  - exists []. apply Hnil.
  - unfold exec. rewrite handleAnalyze_with_cases.
    destruct (truthy (trim (code st))).
    + pose proof (analysis_frame (analysisStarted st)) as Hframe. cbv zeta in Hframe.
      destruct Hframe as (_ & _ & _ & _ & _ & _ & Htoasts).
      rewrite analysisStarted_toasts in Htoasts.
      destruct (analysis (analysisStarted st)) as [[r | err] st1]; cbn [snd] in *.
      * exists [completeToast r]. cbn [analysisDone log].
        rewrite toasts_app, Htoasts. split; [reflexivity | now apply Hdef].
      * exists [failedToast]. cbn [analysisFailed log].
        rewrite toasts_app, Htoasts. split; [reflexivity | now apply Hin].
    + exists [noCodeToast]. split; [apply toasts_logged | now apply Hin].
  - unfold exec, copyClick, bind, get. cbn beta iota.
    destruct (analysisResult st) as [r |]; [| exists []; apply Hnil].
    exists [copiedToast]. split; [| now apply Hdef].
    cbn. rewrite !toasts_app. cbn. now rewrite app_nil_r.
  - exists []. unfold exec, downloadPatch, bind, get. cbn beta iota.
    destruct (analysisResult st) as [r |]; [| apply Hnil].
    cbn. rewrite toasts_app. cbn. split; [reflexivity | constructor].
  - destruct rejects.
    + exists [Header.signOutErrorToast]. split; [| now apply Hin].
      cbn. now rewrite toasts_app.
    + exists [Header.signedOutToast]. split; [| now apply Hdef].
      cbn. rewrite !toasts_app. cbn. now rewrite app_nil_r.
Qed.

Lemma run_toasts (es : list event) (st : State) :
  Forall toast_allowed (toasts (log st)) ->
  Forall toast_allowed (toasts (log (run analysis es st))).
Proof.
  revert st. induction es as [| e es IH]; intros st Hst; [exact Hst |].
  cbn [run fold_left]. apply IH.
  destruct (handle_toasts e st) as (ts & -> & Hts).
  apply Forall_app. split; assumption.
Qed.

(** C4, amended: along every sequence of events of the page, from its
    initial state, a destructive toast has one of five titles: "Invalid
    file type", "File too large", "No code to analyze", "Analysis
    failed", or the header's "Error signing out". *)
Theorem C4_destructive_toasts (es : list event) (t : Toast) :
  t ∈ toasts (log (run analysis es initial)) ->
  variant t = destructive ->
  title t ∈ ["Invalid file type"; "File too large"; "No code to analyze";
             "Analysis failed"; "Error signing out"].
Proof.
  intros Hin Hvar.
  pose proof (run_toasts es initial (List.Forall_nil _)) as Hall.
  rewrite Forall_forall in Hall. apply (Hall t Hin).
  unfold is_destructive. now rewrite Hvar.
Qed.

End Notifications.

Lemma C7_witness :
let st := Analyze.exec (Analyze.setCode "let x = 1;") Analyze.initial in
let st' := Analyze.exec (Analyze.handleAnalyze_with Analyze.rejectingAnalysis) st in
Page.toasts (Analyze.log st') = [Analyze.failedToast] /\
Analyze.analysisResult st' = None /\
Analyze.isAnalyzing st' = false.
Proof.
intros st st'.
assert (Hcode : JS.trim (Analyze.code st) <> "") by (vm_compute; discriminate).
destruct (proj1 (C7_failure_path Analyze.rejectingAnalysis
                   rejectingAnalysis_progress_only st Hcode)
            "TypeError: Failed to fetch"
            (snd (Analyze.rejectingAnalysis (Analyze.analysisStarted st)))
            eq_refl)
  as (_ & _ & Htoasts & _ & Hres & Hbusy).
split; [exact Htoasts | split; [exact Hres | exact Hbusy]].
Defined.

(** C4 as it is stated fails on the page as it first renders: [code] is
    empty, and a click on "Analyze Code" shows a destructive toast titled
    "No code to analyze", which is none of the three notices named. *)
Lemma C4_counterexample :
let t := Analyze.noCodeToast in
t ∈ Page.toasts (Analyze.log (Page.run Analyze.simulateAnalysis [Page.AnalyzeClick]
                                Analyze.initial)) /\
Analyze.variant t = Analyze.destructive /\
Analyze.title t ∉ Page.namedTitles.
Proof.
intros t. split; [| split].
- vm_compute. constructor.
- reflexivity.
- apply includes_not_elem_of. vm_compute. reflexivity.
Qed.

Lemma C4_witness :
  let notes := Analyze.mkFile "notes.txt" 12 "text/plain" "hello" in
  let es := [Page.FileInputChange [notes]; Page.AnalyzeClick] in
  Analyze.invalidTypeToast
    ∈ Page.toasts (Analyze.log (Page.run Analyze.simulateAnalysis es Analyze.initial)) /\
  Analyze.title Analyze.invalidTypeToast ∈ Page.destructiveTitles.
Proof.
  intros notes es.
  assert (Hshown : Analyze.invalidTypeToast
            ∈ Page.toasts (Analyze.log (Page.run Analyze.simulateAnalysis es Analyze.initial)))
    by (vm_compute; constructor).
  split; [exact Hshown |].
  exact (C4_destructive_toasts Analyze.simulateAnalysis simulateAnalysis_progress_only
           es Analyze.invalidTypeToast Hshown eq_refl).
Defined.

(** ** The Dashboard statistic *)
Section DashboardStats.
Import Dashboard.
Local Open Scope Z_scope.

Lemma digits2_size (p : positive) : digits2_pos p = Pos.size p.
Proof. induction p; cbn; congruence. Qed.

Lemma digits_log2 (p : positive) : Zpos (digits2_pos p) = Z.log2 (Zpos p) + 1.
Proof.
  rewrite digits2_size. destruct p; cbn [Z.log2 Pos.size]; rewrite ?Pos2Z.inj_succ; lia.
Qed.

(** A positive number of [d] binary digits lies in [2^(d-1), 2^d). *)
Lemma digits_bounds (p : positive) :
  2 ^ (Zpos (digits2_pos p) - 1) <= Zpos p < 2 ^ Zpos (digits2_pos p).
Proof.
  rewrite digits_log2. replace (Z.log2 (Zpos p) + 1 - 1) with (Z.log2 (Zpos p)) by lia.
  replace (Z.log2 (Zpos p) + 1) with (Z.succ (Z.log2 (Zpos p))) by lia.
  apply Z.log2_spec. lia.
Qed.

Lemma digits_unique (p : positive) (d : Z) :
  2 ^ (d - 1) <= Zpos p < 2 ^ d -> Zpos (digits2_pos p) = d.
Proof.
  intros [Hlo Hhi]. pose proof (digits_bounds p) as [Hlo' Hhi'].
  assert (0 < d).
  { destruct (Z_lt_le_dec 0 d); [assumption |].
    assert (2 ^ d <= 2 ^ 0) by (apply Z.pow_le_mono_r; lia). cbn in *. lia. }
  destruct (Z.lt_trichotomy (Zpos (digits2_pos p)) d) as [Hlt | [Heq | Hgt]]; [| exact Heq |].
  - assert (2 ^ Zpos (digits2_pos p) <= 2 ^ (d - 1)) by (apply Z.pow_le_mono_r; lia). lia.
  - assert (2 ^ d <= 2 ^ (Zpos (digits2_pos p) - 1)) by (apply Z.pow_le_mono_r; lia). lia.
Qed.

Lemma iter_xO (m k : positive) : Zpos (Pos.iter xO m k) = Zpos m * 2 ^ Zpos k.
Proof.
  induction k as [| k IH] using Pos.peano_ind.
  - cbn. lia.
  - rewrite Pos.iter_succ, Pos2Z.inj_xO, IH, Pos2Z.inj_succ, Z.pow_succ_r by lia. lia.
Qed.


Lemma shr_1_even (p : positive) : shr_1 (rec0 (2 * Zpos p)) = rec0 (Zpos p).
Proof. reflexivity. Qed.

Lemma pow_xO (k : positive) : 2 ^ Zpos k~0 = 2 ^ Zpos k * 2 ^ Zpos k.
Proof. rewrite <- Z.pow_add_r by lia. f_equal. lia. Qed.

Lemma pow_xI (k : positive) : 2 ^ Zpos k~1 = 2 * (2 ^ Zpos k * 2 ^ Zpos k).
Proof.
  rewrite <- Z.pow_add_r by lia. rewrite <- Z.pow_succ_r by lia. f_equal. lia.
Qed.

Lemma pow_pos_pos (k : positive) : 0 < 2 ^ Zpos k.
Proof. apply Z.pow_pos_nonneg; lia. Qed.

Lemma iter_shr_exact (k : positive) : forall m : Z, 0 < m ->
  SpecFloat.iter_pos shr_1 k (rec0 (m * 2 ^ Zpos k)) = rec0 m.
Proof.
  induction k as [k IH | k IH |]; intros m Hm; cbn [SpecFloat.iter_pos].
  - rewrite pow_xI.
    pose proof (pow_pos_pos k) as Hk.
    assert (H1 : 0 < m * 2 ^ Zpos k) by nia.
    assert (H2 : 0 < m * 2 ^ Zpos k * 2 ^ Zpos k) by nia.
    replace (m * (2 * (2 ^ Zpos k * 2 ^ Zpos k)))
      with (2 * Zpos (Z.to_pos (m * 2 ^ Zpos k * 2 ^ Zpos k)))
      by (rewrite Z2Pos.id by exact H2; lia).
    rewrite shr_1_even, Z2Pos.id by exact H2.
    rewrite (IH _ H1). apply IH, Hm.
  - rewrite pow_xO.
    pose proof (pow_pos_pos k) as Hk.
    assert (H1 : 0 < m * 2 ^ Zpos k) by nia.
    rewrite Z.mul_assoc, (IH _ H1). apply IH, Hm.
  - change (2 ^ 1) with 2. destruct m as [| p | p]; try lia.
    replace (Zpos p * 2) with (2 * Zpos p) by lia. apply shr_1_even.
Qed.

Lemma fexp_eq (e : Z) : fexp 53 1024 e = Z.max (e - 53) (-1074).
Proof. reflexivity. Qed.

Lemma loc_rec0 (m : Z) : loc_of_shr_record (rec0 m) = loc_Exact.
Proof. reflexivity. Qed.

Lemma shr_fexp_canon (M : positive) (e : Z) (l : location) :
  Zpos (digits2_pos M) = 53 -> -1074 <= e ->
  shr_fexp 53 1024 (Zpos M) e l = (shr_record_of_loc (Zpos M) l, e).
Proof.
  intros Hd He. unfold shr_fexp. cbn [Zdigits2]. rewrite Hd, fexp_eq.
  replace (Z.max (53 + e - 53) (-1074) - e) with 0 by lia. reflexivity.
Qed.

Lemma round_aux_canon (s : bool) (M : positive) (e : Z) :
  Zpos (digits2_pos M) = 53 -> -1074 <= e <= 971 ->
  binary_round_aux 53 1024 s (Zpos M) e loc_Exact = S754_finite s M e.
Proof.
  intros Hd [Hlo Hhi]. unfold binary_round_aux.
  rewrite (shr_fexp_canon M e loc_Exact Hd Hlo). cbn [shr_record_of_loc shr_m loc_of_shr_record round_nearest_even].
  rewrite (shr_fexp_canon M e loc_Exact Hd Hlo). cbn [shr_record_of_loc shr_m].
  replace (e <=? 1024 - 53) with true by (symmetry; apply Z.leb_le; lia). reflexivity.
Qed.

Lemma digits_shift (p : positive) (j : Z) (q : positive) :
  0 <= j -> Zpos q = Zpos p * 2 ^ j ->
  Zpos (digits2_pos q) = Zpos (digits2_pos p) + j.
Proof.
  intros Hj Hq. apply digits_unique. rewrite Hq.
  pose proof (digits_bounds p) as [Hlo Hhi].
  replace (Zpos (digits2_pos p) + j - 1) with ((Zpos (digits2_pos p) - 1) + j) by lia.
  assert (0 <= Zpos (digits2_pos p) - 1) by lia.
  rewrite !Z.pow_add_r by lia.
  assert (0 < 2 ^ j) by (apply Z.pow_pos_nonneg; lia).
  split; nia.
Qed.


Lemma canon_digits (z : positive) :
  Zpos z < 2 ^ 53 ->
  Zpos (digits2_pos (Z.to_pos (Zpos z * 2 ^ (53 - Zpos (digits2_pos z))))) = 53
  /\ Zpos (digits2_pos z) <= 53.
Proof.
  intros Hz. pose proof (digits_bounds z) as [Hlo Hhi].
  assert (Hd : Zpos (digits2_pos z) <= 53).
  { destruct (Z_le_gt_dec (Zpos (digits2_pos z)) 53); [assumption |].
    assert (2 ^ 53 <= 2 ^ (Zpos (digits2_pos z) - 1)) by (apply Z.pow_le_mono_r; lia). lia. }
  split; [| exact Hd].
  assert (Hp : 0 < 2 ^ (53 - Zpos (digits2_pos z))) by (apply Z.pow_pos_nonneg; lia).
  rewrite (digits_shift z (53 - Zpos (digits2_pos z))); [lia | lia |].
  rewrite Z2Pos.id by nia. reflexivity.
Qed.

Lemma binary_round_exact (s : bool) (z m : positive) (j : Z) :
  Zpos z < 2 ^ 53 -> 0 <= j <= 1074 -> Zpos m = Zpos z * 2 ^ j ->
  binary_round 53 1024 s m (- j) = canon s z.
Proof.
  intros Hz Hj Hm.
  destruct (canon_digits z Hz) as [Hcd Hd].
  pose proof (digits_shift z j m (proj1 Hj) Hm) as Hdm.
  set (d := Zpos (digits2_pos z)) in *.
  assert (Hd1 : 1 <= d) by (subst d; lia).
  unfold binary_round. rewrite Hdm, fexp_eq.
  replace (Z.max (d + j + - j - 53) (-1074)) with (d - 53) by lia.
  unfold shl_align.
  destruct (d - 53 - - j) as [| k | k] eqn:Hn.
  - (* already canonical *)
    assert (Hmz : m = Z.to_pos (Zpos z * 2 ^ (53 - d))).
    { replace (53 - d) with j by lia. rewrite <- Hm. reflexivity. }
    replace (- j) with (d - 53) by lia.
    rewrite round_aux_canon; [unfold canon; fold d; now rewrite Hmz | | lia].
    rewrite Hmz. exact Hcd.
  - (* too many digits: shift right, exactly *)
    unfold binary_round_aux. unfold shr_fexp at 1. cbn [Zdigits2]. rewrite Hdm, fexp_eq.
    replace (Z.max (d + j + - j - 53) (-1074) - - j) with (Zpos k) by lia.
    cbn [shr shr_record_of_loc]. fold (rec0 (Zpos m)).
    assert (Hp : 0 < 2 ^ (53 - d)) by (apply Z.pow_pos_nonneg; lia).
    assert (Hsplit : Zpos m = (Zpos z * 2 ^ (53 - d)) * 2 ^ Zpos k).
    { rewrite Hm, <- Z.mul_assoc, <- Z.pow_add_r by lia. do 2 f_equal. lia. }
    rewrite Hsplit, iter_shr_exact by nia.
    rewrite loc_rec0. cbn [round_nearest_even shr_m rec0].
    replace (- j + Zpos k) with (d - 53) by lia.
    replace (Zpos z * 2 ^ (53 - d)) with (Zpos (Z.to_pos (Zpos z * 2 ^ (53 - d))))
      by (apply Z2Pos.id; nia).
    rewrite shr_fexp_canon; [| exact Hcd | lia].
    cbn [shr_record_of_loc shr_m].
    replace (d - 53 <=? 1024 - 53) with true by (symmetry; apply Z.leb_le; lia).
    reflexivity.
  - (* too few digits: shift left *)
    assert (Hmz : Pos.iter xO m k = Z.to_pos (Zpos z * 2 ^ (53 - d))).
    { apply Pos2Z.inj. rewrite iter_xO, Hm.
      assert (Hp : 0 < 2 ^ (53 - d)) by (apply Z.pow_pos_nonneg; lia).
      rewrite Z2Pos.id by nia.
      rewrite <- Z.mul_assoc, <- Z.pow_add_r by lia. do 2 f_equal. lia. }
    rewrite Hmz, round_aux_canon; [reflexivity | exact Hcd | lia].
Qed.

Lemma fromZ_pos (z : positive) : Zpos z < 2 ^ 53 -> fromZ (Zpos z) = canon false z.
Proof.
  intros Hz. unfold fromZ, binary_normalize.
  apply (binary_round_exact false z z 0 Hz); [lia | cbn; lia].
Qed.

Lemma fromZ_0 : fromZ 0 = S754_zero false.
Proof. reflexivity. Qed.

Lemma shl_align_fst (m : positive) (e ez : Z) :
  ez <= e -> Zpos (fst (shl_align m e ez)) = Zpos m * 2 ^ (e - ez).
Proof.
  intros H. unfold shl_align. destruct (ez - e) as [| k | k] eqn:Hk; cbn [fst].
  - replace (e - ez) with 0 by lia. cbn. lia.
  - lia.
  - rewrite iter_xO. do 2 f_equal. lia.
Qed.

Lemma canon_mantissa (z : positive) :
  Zpos z < 2 ^ 53 ->
  Zpos (Z.to_pos (Zpos z * 2 ^ (53 - Zpos (digits2_pos z))))
  = Zpos z * 2 ^ (53 - Zpos (digits2_pos z)).
Proof.
  intros Hz. destruct (canon_digits z Hz) as [_ Hd].
  assert (0 < 2 ^ (53 - Zpos (digits2_pos z))) by (apply Z.pow_pos_nonneg; lia).
  apply Z2Pos.id. nia.
Qed.

Lemma add_pos (a c : positive) :
  Zpos a + Zpos c < 2 ^ 53 ->
  add (canon false a) (canon false c) = canon false (a + c).
Proof.
  intros Hsum.
  assert (Ha : Zpos a < 2 ^ 53) by lia. assert (Hc : Zpos c < 2 ^ 53) by lia.
  destruct (canon_digits a Ha) as [_ Hda]. destruct (canon_digits c Hc) as [_ Hdc].
  pose proof (canon_mantissa a Ha) as Hma. pose proof (canon_mantissa c Hc) as Hmc.
  unfold add, canon, SFadd.
  set (da := Zpos (digits2_pos a)) in *. set (dc := Zpos (digits2_pos c)) in *.
  assert (1 <= da) by (subst da; lia). assert (1 <= dc) by (subst dc; lia).
  set (ma := Z.to_pos (Zpos a * 2 ^ (53 - da))) in *.
  set (mc := Z.to_pos (Zpos c * 2 ^ (53 - dc))) in *.
  set (ez := Z.min (da - 53) (dc - 53)).
  cbn [cond_Zopp].
  pose proof (shl_align_fst ma (da - 53) ez ltac:(subst ez; lia)) as Hfa.
  pose proof (shl_align_fst mc (dc - 53) ez ltac:(subst ez; lia)) as Hfc.
  set (xa := fst (shl_align ma (da - 53) ez)) in *.
  set (xc := fst (shl_align mc (dc - 53) ez)) in *.
  change (Zpos xa + Zpos xc) with (Zpos (xa + xc)). cbn [binary_normalize].
  replace ez with (- (- ez)) at 1 by lia.
  apply binary_round_exact.
  - rewrite Pos2Z.inj_add. exact Hsum.
  - subst ez. lia.
  - rewrite !Pos2Z.inj_add, Hfa, Hfc, Hma, Hmc.
    rewrite <- !Z.mul_assoc, <- !Z.pow_add_r by (subst ez; lia).
    replace (53 - da + (da - 53 - ez)) with (- ez) by lia.
    replace (53 - dc + (dc - 53 - ez)) with (- ez) by lia. lia.
Qed.

Lemma add_whole (a c : Z) :
  0 <= a -> 0 <= c -> a + c < 2 ^ 53 ->
  add (fromZ a) (fromZ c) = fromZ (a + c).
Proof.
  intros Ha Hc Hsum.
  destruct a as [| a | a]; [| | lia]; destruct c as [| c | c]; try lia.
  - reflexivity.
  - rewrite fromZ_0, Z.add_0_l. rewrite fromZ_pos by lia. reflexivity.
  - rewrite fromZ_0, Z.add_0_r. rewrite fromZ_pos by lia. reflexivity.
  - rewrite !fromZ_pos by lia. rewrite add_pos by exact Hsum.
    change (Zpos a + Zpos c) with (Zpos (a + c)). rewrite fromZ_pos; [reflexivity |].
    rewrite Pos2Z.inj_add. exact Hsum.
Qed.


Lemma new_location_ok (mn r : Z) :
  0 <= r < mn -> loc_ok (new_location mn r) r mn.
Proof.
  intros Hr. unfold new_location, new_location_even, new_location_odd.
  destruct (Z.even mn) eqn:Hev; destruct (Z.eqb_spec r 0) as [-> | Hr0]; cbn [loc_ok];
    try reflexivity.
  - destruct (Z.compare_spec (2 * r) mn); cbn [loc_ok]; lia.
  - assert (Hodd : Z.odd mn = true) by (rewrite <- Z.negb_even, Hev; reflexivity).
    apply Z.odd_spec in Hodd as [j Hj].
    destruct (Z.compare_spec (2 * r + 1) mn); cbn [loc_ok]; lia.
Qed.

Lemma loc_of_record_of (m : Z) (l : location) :
  loc_of_shr_record (shr_record_of_loc m l) = l /\ shr_m (shr_record_of_loc m l) = m.
Proof. destruct l as [| []]; split; reflexivity. Qed.

(** The first shift and the rounding of [binary_round_aux] on a quotient of
    53 or 54 bits. *)
Lemma first_round (q : positive) (e0 : Z) (l : location) (mn r : Z) :
  2 ^ 52 <= Zpos q < 2 ^ 54 -> -1074 <= e0 -> 0 < mn -> loc_ok l r mn ->
  exists t M,
    (t = 0 \/ t = 1) /\
    (let '(mrs, e) := shr_fexp 53 1024 (Zpos q) e0 l in
     (round_nearest_even (shr_m mrs) (loc_of_shr_record mrs), e)) = (M, e0 + t) /\
    let M' := Zpos q / 2 ^ t in
    let B := mn * 2 ^ t in
    2 ^ 52 <= M' < 2 ^ 53 /\
    M' * B <= Zpos q * mn + r /\
    (0 <= r < mn -> Zpos q * mn + r < (M' + 1) * B) /\
    (M = M' \/ (M = M' + 1 /\ B <= 2 * (Zpos q * mn + r - M' * B))).
Proof.
  intros [Hlo Hhi] He Hmn Hl.
  destruct (Z_lt_le_dec (Zpos q) (2 ^ 53)) as [Hq | Hq].
  - (* 53 bits: no shift *)
    assert (Hd : Zpos (digits2_pos q) = 53) by (apply digits_unique; split; [exact Hlo | exact Hq]).
    exists 0, (round_nearest_even (Zpos q) l).
    split; [now left |].
    rewrite (shr_fexp_canon q e0 l Hd He).
    destruct (loc_of_record_of (Zpos q) l) as [-> ->].
    split; [now rewrite Z.add_0_r |].
    cbv zeta. change (2 ^ 0) with 1. rewrite Z.div_1_r, Z.mul_1_r.
    split; [lia |]. split; [destruct l as [| []]; cbn [loc_ok] in Hl; lia |]. split; [lia |].
    destruct l as [| []]; cbn [round_nearest_even loc_ok] in *.
    + now left.
    + destruct (Z.even (Zpos q)); [now left | right; lia].
    + now left.
    + right. lia.
  - (* 54 bits: one shift *)
    assert (Hd : Zpos (digits2_pos q) = 54) by (apply digits_unique; split; [exact Hq | exact Hhi]).
    assert (Hsh : shr_fexp 53 1024 (Zpos q) e0 l = (shr_1 (shr_record_of_loc (Zpos q) l), e0 + 1)).
    { unfold shr_fexp. cbn [Zdigits2]. rewrite Hd, fexp_eq.
      replace (Z.max (54 + e0 - 53) (-1074) - e0) with 1 by lia. reflexivity. }
    exists 1. rewrite Hsh. change (2 ^ 1) with 2.
    destruct q as [p | p |]; [| | cbn in Hlo; lia].
    + (* odd quotient *)
      assert (Hdiv : Zpos p~1 / 2 = Zpos p).
      { rewrite Pos2Z.inj_xI. symmetry. apply (Z.div_unique _ 2 _ 1); lia. }
      rewrite Hdiv.
      exists (round_nearest_even (Zpos p)
                (loc_of_shr_record (shr_1 (shr_record_of_loc (Zpos p~1) l)))).
      split; [now right |].
      split; [destruct l as [| []]; reflexivity |].
      cbv zeta. rewrite Pos2Z.inj_xI in *.
      split; [lia |]. split; [destruct l as [| []]; cbn [loc_ok] in Hl; nia |]. split; [nia |].
      destruct l as [| []]; cbn [shr_1 shr_record_of_loc loc_of_shr_record orb round_nearest_even loc_ok] in *.
      * destruct (Z.even (Zpos p)); [now left | right; nia].
      * right. nia.
      * right. nia.
      * right. nia.
    + (* even quotient *)
      assert (Hdiv : Zpos p~0 / 2 = Zpos p).
      { rewrite Pos2Z.inj_xO. symmetry. apply (Z.div_unique _ 2 _ 0); lia. }
      rewrite Hdiv.
      exists (Zpos p).
      split; [now right |].
      split; [destruct l as [| []]; reflexivity |].
      cbv zeta. rewrite Pos2Z.inj_xO in *.
      split; [lia |]. split; [destruct l as [| []]; cbn [loc_ok] in Hl; nia |]. split; [nia |].
      now left.
Qed.




(** The second shift of [binary_round_aux]: the rounded mantissa has 53
    bits, or is [2^53]. *)
Lemma second_round (s : bool) (M E : Z) :
  2 ^ 52 <= M <= 2 ^ 53 -> -1074 <= E <= 970 ->
  exists Mf Ef,
    (let '(mrs, e) := shr_fexp 53 1024 M E loc_Exact in
     match shr_m mrs with
     | 0 => S754_zero s
     | Zpos m => if e <=? 1024 - 53 then S754_finite s m e else S754_infinity s
     | Zneg _ => S754_nan
     end) = S754_finite s Mf Ef /\
    ((Ef = E /\ Zpos Mf = M) \/ (Ef = E + 1 /\ 2 * Zpos Mf = M)).
Proof.
  intros [Hlo Hhi] [HElo HEhi].
  destruct M as [| m | m]; [cbn in Hlo; lia | | cbn in Hlo; lia].
  destruct (Z_lt_le_dec (Zpos m) (2 ^ 53)) as [Hm | Hm].
  - assert (Hd : Zpos (digits2_pos m) = 53) by (apply digits_unique; split; assumption).
    exists m, E. rewrite (shr_fexp_canon m E loc_Exact Hd HElo). cbn [shr_record_of_loc shr_m].
    replace (E <=? 1024 - 53) with true by (symmetry; apply Z.leb_le; lia).
    split; [reflexivity | left; split; reflexivity].
  - assert (Heq : Zpos m = 2 ^ 53) by lia.
    assert (Hmm : m = 9007199254740992%positive) by (apply Pos2Z.inj; rewrite Heq; reflexivity).
    subst m. exists 4503599627370496%positive, (E + 1).
    unfold shr_fexp. cbn [Zdigits2].
    change (Zpos (digits2_pos 9007199254740992)) with 54. rewrite fexp_eq.
    replace (Z.max (54 + E - 53) (-1074) - E) with 1 by lia.
    cbn [shr SpecFloat.iter_pos shr_record_of_loc shr_1 shr_m orb].
    replace (E + 1 <=? 1024 - 53) with true by (symmetry; apply Z.leb_le; lia).
    split; [reflexivity | right; split; reflexivity].
Qed.

(** The arithmetic at the heart of the division: rounding the quotient to
    a multiple of [1/D] does not move it across a half-integer. *)
Lemma round_key (s n m' B D2 M' M : Z) :
  0 < n -> 0 < B -> 0 < D2 -> n < 2 * D2 -> 0 <= s ->
  s * B * (2 * D2) = n * m' ->
  M' * B <= m' < (M' + 1) * B ->
  (M = M' \/ (M = M' + 1 /\ B <= 2 * (m' - M' * B))) ->
  (2 * M + 2 * D2) / (2 * (2 * D2)) = (2 * s + n) / (2 * n).
Proof.
  intros Hn HB HD Hlt Hs Hex [Hlo Hhi] HM.
  set (k := (2 * s + n) / (2 * n)).
  assert (Hk : 2 * n * k <= 2 * s + n < 2 * n * (k + 1)).
  { pose proof (Z.div_mod (2 * s + n) (2 * n) ltac:(lia)) as Hdm.
    pose proof (Z.mod_pos_bound (2 * s + n) (2 * n) ltac:(lia)) as Hmod.
    fold k in Hdm. lia. }
  symmetry. apply (Z.div_unique_pos _ _ k (2 * M + 2 * D2 - 2 * (2 * D2) * k)); [| lia].
  (* G = (2k-1) D2 <= M < H = (2k+1) D2 *)
  assert (HG : (2 * k - 1) * D2 <= M').
  { assert (H1 : (2 * k - 1) * D2 * B * n <= m' * n).
    { assert (H2 : (2 * k - 1) * n <= 2 * s) by lia.
      assert (H3 : (2 * k - 1) * n * (B * D2) <= 2 * s * (B * D2))
        by (apply Z.mul_le_mono_nonneg_r; nia).
      nia. }
    assert (H4 : (2 * k - 1) * D2 * B <= m').
    { apply Z.mul_le_mono_pos_r with (p := n); [exact Hn | exact H1]. }
    assert (H5 : (2 * k - 1) * D2 * B < (M' + 1) * B) by lia.
    assert (H6 : (2 * k - 1) * D2 < M' + 1).
    { apply Z.mul_lt_mono_pos_r with (p := B); [exact HB | exact H5]. }
    lia. }
  assert (Hstar : 2 * n * m' + B * (2 * D2) <= 2 * ((2 * k + 1) * D2) * n * B).
  { assert (H2 : 2 * s + 1 <= (2 * k + 1) * n) by lia.
    assert (H3 : (2 * s + 1) * (B * (2 * D2)) <= (2 * k + 1) * n * (B * (2 * D2)))
      by (apply Z.mul_le_mono_nonneg_r; nia).
    nia. }
  assert (HH : M < (2 * k + 1) * D2).
  { destruct HM as [-> | [-> Hup]].
    - assert (H7 : 2 * n * (M' * B) < 2 * ((2 * k + 1) * D2) * n * B) by nia.
      assert (H8 : M' * (2 * n * B) < ((2 * k + 1) * D2) * (2 * n * B)) by lia.
      apply Z.mul_lt_mono_pos_r with (p := 2 * n * B); [nia | exact H8].
    - assert (H7 : 2 * ((M' + 1) * B) <= 2 * m' + B) by lia.
      assert (H8 : n * (2 * ((M' + 1) * B)) <= n * (2 * m' + B))
        by (apply Z.mul_le_mono_nonneg_l; lia).
      assert (H9 : n * B < B * (2 * D2)) by nia.
      assert (H10 : (M' + 1) * (2 * n * B) < ((2 * k + 1) * D2) * (2 * n * B)) by lia.
      apply Z.mul_lt_mono_pos_r with (p := 2 * n * B); [nia | exact H10]. }
  assert (M' <= M) by (destruct HM as [-> | [-> _]]; lia).
  nia.
Qed.

Lemma div_round (ps pn : positive) :
  Zpos ps <= 100 * Zpos pn -> Zpos pn < 2 ^ 46 ->
  or_else (Math_round (div (canon false ps) (canon false pn))) (S754_zero false)
  = fromZ ((2 * Zpos ps + Zpos pn) / (2 * Zpos pn)).
Proof.
  intros Hratio Hn.
  assert (Hs53 : Zpos ps < 2 ^ 53).
  { change (2 ^ 46) with 70368744177664 in Hn.
    change (2 ^ 53) with 9007199254740992. lia. }
  assert (Hn53 : Zpos pn < 2 ^ 53).
  { apply Z.lt_trans with (2 ^ 46); [exact Hn | reflexivity]. }
  destruct (canon_digits ps Hs53) as [Hcs Hds]. destruct (canon_digits pn Hn53) as [Hcn Hdn].
  pose proof (canon_mantissa ps Hs53) as Hms. pose proof (canon_mantissa pn Hn53) as Hmn.
  pose proof (digits_bounds (Z.to_pos (Zpos ps * 2 ^ (53 - Zpos (digits2_pos ps))))) as Hbs.
  pose proof (digits_bounds (Z.to_pos (Zpos pn * 2 ^ (53 - Zpos (digits2_pos pn))))) as Hbn.
  rewrite Hcs in Hbs. rewrite Hcn in Hbn.
  unfold div, canon, SFdiv. cbn [xorb].
  set (ds := Zpos (digits2_pos ps)) in *. set (dn := Zpos (digits2_pos pn)) in *.
  assert (Hds1 : 1 <= ds) by (subst ds; lia). assert (Hdn1 : 1 <= dn) by (subst dn; lia).
  set (ms := Z.to_pos (Zpos ps * 2 ^ (53 - ds))) in *.
  set (mn := Z.to_pos (Zpos pn * 2 ^ (53 - dn))) in *.
  unfold SFdiv_core_binary. cbn [Zdigits2]. rewrite Hcs, Hcn, fexp_eq.
  set (e0 := ds - dn - 53).
  replace (Z.min (Z.max (53 + (ds - 53) - (53 + (dn - 53)) - 53) (-1074))
                 (ds - 53 - (dn - 53))) with e0 by (subst e0; lia).
  replace (ds - 53 - (dn - 53) - e0) with 53 by (subst e0; lia).
  cbv iota. rewrite Z.shiftl_mul_pow2 by lia.
  set (m' := Zpos ms * 2 ^ 53).
  pose proof (Z_div_mod m' (Zpos mn) ltac:(lia)) as Hdm.
  destruct (Z.div_eucl m' (Zpos mn)) as [q r]. destruct Hdm as [Hq Hr].
  cbv iota beta.
  assert (Hm' : m' = Zpos ms * 2 ^ 53) by reflexivity. clearbody m'.
  change (53 - 1) with 52 in *.
  (* the quotient has 53 or 54 bits *)
  assert (Hqb : 2 ^ 52 <= q < 2 ^ 54).
  { change (2 ^ 54) with (4 * 2 ^ 52). change (2 ^ 53) with (2 * 2 ^ 52) in Hbs, Hbn, Hm'.
    assert (HT : 0 < 2 ^ 52) by reflexivity.
    set (T := 2 ^ 52) in *. clearbody T.
    clear -Hq Hr Hbs Hbn Hm' HT.
    split.
    - destruct (Z_lt_le_dec q T) as [Hlt | Hge]; [exfalso | exact Hge].
      assert (H1 : Zpos mn * q + r < Zpos mn * T) by nia.
      assert (H2 : Zpos mn * T < (2 * T) * T) by nia.
      assert (H3 : T * (2 * T) <= Zpos ms * (2 * T)) by nia.
      lia.
    - destruct (Z_lt_le_dec q (4 * T)) as [Hlt | Hge]; [exact Hlt | exfalso].
      assert (H1 : T * (4 * T) <= Zpos mn * q) by nia.
      assert (H2 : Zpos ms * (2 * T) < (2 * T) * (2 * T)) by nia.
      lia. }
  destruct q as [| q | q]; [cbn in Hqb; lia | | cbn in Hqb; lia].
  pose proof (new_location_ok (Zpos mn) r Hr) as Hloc.
  assert (He0 : -1074 <= e0) by (subst e0; lia).
  destruct (first_round q e0 (new_location (Zpos mn) r) (Zpos mn) r Hqb He0 ltac:(lia) Hloc)
    as (t & M & Ht & Hfirst & HM'b & HMlo & HMhi & HM).
  specialize (HMhi Hr).
  set (M' := Zpos q / 2 ^ t) in *. set (B := Zpos mn * 2 ^ t) in *.
  rewrite Z.mul_comm in Hq. rewrite <- Hq in HMlo, HMhi, HM.
  (* exponents *)
  assert (Hexp : ds - dn + t <= 7).
  { destruct (Z_le_gt_dec (ds - dn + t) 7) as [Hle | Hgt]; [exact Hle | exfalso].
    assert (HX : 0 < 2 ^ (106 - ds)) by (apply Z.pow_pos_nonneg; lia).
    assert (Hm'X : m' = Zpos ps * 2 ^ (106 - ds)).
    { rewrite Hm', Hms, <- Z.mul_assoc, <- Z.pow_add_r by lia. do 2 f_equal. lia. }
    assert (HBX : 2 ^ 52 * B = Zpos pn * (2 ^ (106 - ds) * 2 ^ (ds - dn + t - 1))).
    { unfold B. rewrite Hmn, <- Z.pow_add_r by lia.
      replace (106 - ds + (ds - dn + t - 1)) with (52 + (53 - dn) + t) by lia.
      rewrite !Z.pow_add_r by lia. ring. }
    assert (H7 : 2 ^ 7 <= 2 ^ (ds - dn + t - 1)) by (apply Z.pow_le_mono_r; lia).
    change (2 ^ 7) with 128 in H7.
    assert (HB0 : 0 < B) by (unfold B; apply Z.mul_pos_pos; [lia | apply Z.pow_pos_nonneg; lia]).
    assert (H1 : 2 ^ 52 * B <= M' * B) by (apply Z.mul_le_mono_nonneg_r; lia).
    set (X := 2 ^ (106 - ds)) in *. set (Y := 2 ^ (ds - dn + t - 1)) in *.
    clearbody X Y.
    assert (HpX : 0 < Zpos pn * X) by (apply Z.mul_pos_pos; lia).
    assert (H2 : Zpos pn * X * 128 <= Zpos pn * X * Y)
      by (apply Z.mul_le_mono_nonneg_l; lia).
    assert (H3 : Zpos ps * X <= 100 * Zpos pn * X)
      by (apply Z.mul_le_mono_nonneg_r; lia).
    clear -H1 HBX Hm'X HMlo H2 H3 HpX. lia. }
  set (E := e0 + t) in *.
  assert (HE : -1074 <= E <= -46) by (subst E e0; lia).
  assert (HMb : 2 ^ 52 <= M <= 2 ^ 53) by (destruct HM as [-> | [-> _]]; lia).
  destruct (second_round false M E HMb ltac:(lia)) as (Mf & Ef & Hsecond & HMf).
  unfold binary_round_aux.
  destruct (shr_fexp 53 1024 (Zpos q) e0 (new_location (Zpos mn) r)) as [mrs e1].
  injection Hfirst as -> ->. fold E. rewrite Hsecond.
  set (s := Zpos ps) in *. set (n := Zpos pn) in *.
  set (D2 := 2 ^ (- E - 1)).
  assert (HD2 : 0 < D2) by (apply Z.pow_pos_nonneg; lia).
  assert (HD2n : n < 2 * D2).
  { assert (H45 : 2 ^ 45 <= D2) by (apply Z.pow_le_mono_r; lia).
    change (2 ^ 45) with 35184372088832 in H45.
    change (2 ^ 46) with 70368744177664 in Hn. lia. }
  assert (HB0 : 0 < B) by (unfold B; apply Z.mul_pos_pos; [lia | apply Z.pow_pos_nonneg; lia]).
  assert (Hexact : s * B * (2 * D2) = n * m').
  { assert (Hpow : 2 ^ (53 - ds) * 2 ^ 53 = 2 ^ (53 - dn) * 2 ^ t * 2 ^ (53 + dn - ds - t)).
    { rewrite <- !Z.pow_add_r by lia. f_equal. lia. }
    assert (HD : 2 * D2 = 2 ^ (53 + dn - ds - t)).
    { unfold D2. rewrite <- Z.pow_succ_r by lia. f_equal. subst E e0. lia. }
    unfold B. rewrite HD, Hm', Hms, Hmn. fold s n.
    set (a := 2 ^ (53 - ds)) in *. set (b := 2 ^ 53) in *. set (c := 2 ^ (53 - dn)) in *.
    set (d := 2 ^ t) in *. set (e := 2 ^ (53 + dn - ds - t)) in *.
    replace (s * (n * c * d) * e) with (n * s * (c * d * e)) by ring.
    replace (n * (s * a * b)) with (n * s * (a * b)) by ring.
    now rewrite Hpow. }
  pose proof (round_key s n m' B D2 M' M ltac:(lia) HB0 HD2 HD2n ltac:(lia) Hexact
                (conj HMlo HMhi) HM) as Hkey.
  set (k := (2 * s + n) / (2 * n)) in *.
  assert (Hk : 0 <= k <= 100).
  { split.
    - apply Z.div_pos; lia.
    - apply Z.lt_succ_r. apply Z.div_lt_upper_bound; lia. }
  assert (Hkv : Math_round (S754_finite false Mf Ef)
                = if k =? 0 then S754_zero false else fromZ k).
  { destruct Ef as [| p | p]; [lia | lia |].
    cbn [Math_round cond_Zopp]. change (Z.pow_pos 2 p) with (2 ^ Zpos p).
    destruct HMf as [[HEf HMfM] | [HEf HMfM]].
    - replace (2 ^ Zpos p) with (2 * D2).
      + rewrite HMfM, Hkey. reflexivity.
      + unfold D2. rewrite <- Z.pow_succ_r by lia. f_equal. lia.
    - replace (2 ^ Zpos p) with D2 by (unfold D2; f_equal; lia).
      rewrite <- Hkey, <- HMfM.
      replace (2 * (2 * Zpos Mf) + 2 * D2) with (2 * (2 * Zpos Mf + D2)) by ring.
      rewrite Z.div_mul_cancel_l by lia. reflexivity. }
  rewrite Hkv.
  destruct k as [| pk | pk]; [reflexivity | | lia].
  cbn [Z.eqb]. rewrite fromZ_pos by (change (2 ^ 53) with 9007199254740992; lia).
  reflexivity.
Qed.

Lemma exactValue_fromZ (c : Z) :
  0 <= c < 2 ^ 53 ->
  exists v, exactValue (fromZ c) = Some v /\ (v == inject_Z c)%Q.
Proof.
  intros [Hlo Hhi]. destruct c as [| z | z]; [| | lia].
  - exists 0%Q. split; reflexivity.
  - rewrite fromZ_pos by exact Hhi. unfold canon.
    pose proof (canon_mantissa z Hhi) as Hm. destruct (canon_digits z Hhi) as [_ Hd].
    set (d := Zpos (digits2_pos z)) in *.
    set (m := Z.to_pos (Zpos z * 2 ^ (53 - d))) in *.
    destruct (d - 53) as [| p | p] eqn:He; [| lia |].
    + eexists. split; [reflexivity |]. cbn [cond_Zopp]. rewrite Hm.
      replace (53 - d) with 0 by lia. change (2 ^ 0) with 1. now rewrite !Z.mul_1_r.
    + eexists. split; [reflexivity |]. cbn [cond_Zopp].
      unfold Qeq. cbn [Qnum Qden inject_Z]. rewrite Hm, Pos2Z.inj_pow, Z.mul_1_r.
      do 2 f_equal. lia.
Qed.

Lemma sum_whole (l : list Analysis) :
  Forall wholePercent l ->
  forall a : Z, 0 <= a -> a + 100 * Z.of_nat (length l) < 2 ^ 53 ->
  exists S : Z,
    0 <= S <= 100 * Z.of_nat (length l) /\
    fold_left (fun sum x => add sum (confidence x)) l (fromZ a) = fromZ (a + S) /\
    exists q, exactSum l = Some q /\ (q == inject_Z S)%Q.
Proof.
  induction 1 as [| x l (c & Hc & Hx) _ IH]; intros a Ha Hbound.
  - exists 0. split; [cbn; lia |]. split; [now rewrite Z.add_0_r |].
    exists 0%Q. split; reflexivity.
  - cbn [length] in Hbound. rewrite Nat2Z.inj_succ in Hbound.
    destruct (IH (a + c) ltac:(lia) ltac:(lia)) as (S & HS & Hfold & q & Hq & Hqeq).
    exists (c + S). split; [cbn [length]; rewrite Nat2Z.inj_succ; lia |].
    split.
    + cbn [fold_left]. rewrite Hx, add_whole by lia. rewrite Hfold. f_equal. lia.
    + destruct (exactValue_fromZ c) as (v & Hv & Hveq).
      { change (2 ^ 53) with 9007199254740992. lia. }
      exists (v + q)%Q. cbn [exactSum]. rewrite Hx, Hv, Hq. split; [reflexivity |].
      rewrite Hveq, Hqeq, inject_Z_plus. reflexivity.
Qed.

Lemma Qfloor_mean (q : Q) (S n : Z) :
  0 < n -> (q == inject_Z S)%Q ->
  Qfloor (q / inject_Z n + (1 # 2))%Q = (2 * S + n) / (2 * n).
Proof.
  intros Hn Hq.
  assert (E : (q / inject_Z n + (1 # 2) == (2 * S + n) # (Z.to_pos (2 * n)))%Q).
  { rewrite Hq, (Qmake_Qdiv (2 * S + n)), Z2Pos.id by lia.
    rewrite inject_Z_plus, !inject_Z_mult.
    assert (Hnz : ~ (inject_Z n == 0)%Q).
    { intros H0. unfold Qeq in H0. cbn in H0. lia. }
    field. exact Hnz. }
  rewrite E. unfold Qfloor. rewrite Z2Pos.id by lia. reflexivity.
Qed.

(** C10 as it is stated fails on the numbers of the language.  On the two
    confidences [2^53] and [1] the sum is rounded to [2^53], and the page
    shows 4503599627370496 where the rounded mean is 4503599627370497.  On
    [94.5] and the number just below it, both between 0 and 100, the sum
    is rounded up to 189, and the page shows 95 where the rounded mean is
    94. *)
Lemma C10_counterexample :
  let entry := mkAnalysis "1" "a.ts" "TypeScript" completed "2024-01-15T10:30:00Z" (fromZ 0) in
  let large := [entry (fromZ 9007199254740992); entry (fromZ 1)] in
  let close := [entry (S754_finite false 6649846324789248 (-46));
                entry (S754_finite false 6649846324789247 (-46))] in
  (roundedMean large = Some 4503599627370497 /\
   avgConfidence large = fromZ 4503599627370496) /\
  (map (fun a => option_map Qred (exactValue (confidence a))) close
   = [Some (189 # 2)%Q; Some (6649846324789247 # 70368744177664)%Q] /\
   roundedMean close = Some 94 /\
   avgConfidence close = fromZ 95).
Proof.
  intros entry large close. split; [split | split; [| split]]; vm_compute; reflexivity.
Qed.

(** C10, amended: on the empty list the statistic is 0, the [NaN] of
    [0 / 0] being replaced by [|| 0]; on a list that is not empty (of a
    length that an array can have, below [2^32]) whose confidences are
    whole numbers from 0 to 100, it is the rounded mean of the confidence
    fields, a half rounded up, itself between 0 and 100. *)
Theorem C10_avg_confidence :
  avgConfidence [] = fromZ 0 /\
  div (sumConfidence []) (fromZ (Z.of_nat (length (@nil Analysis)))) = S754_nan /\
  (forall analyses : list Analysis,
      analyses <> [] ->
      Z.of_nat (length analyses) < 2 ^ 32 ->
      Forall wholePercent analyses ->
      exists k : Z,
        avgConfidence analyses = fromZ k /\
        roundedMean analyses = Some k /\
        0 <= k <= 100).
Proof.
  split; [reflexivity | split; [reflexivity |]].
  intros analyses Hne Hlen Hall.
  set (n := Z.of_nat (length analyses)) in *.
  assert (Hn : 0 < n) by (subst n; destruct analyses; [congruence | cbn [length]; lia]).
  change (2 ^ 32) with 4294967296 in Hlen.
  destruct (sum_whole analyses Hall 0 ltac:(lia)) as (S & HS & Hfold & q & Hq & Hqeq).
  { fold n. change (2 ^ 53) with 9007199254740992. lia. }
  fold n in HS. rewrite Z.add_0_l in Hfold.
  exists ((2 * S + n) / (2 * n)).
  assert (Hk : 0 <= (2 * S + n) / (2 * n) <= 100).
  { split.
    - apply Z.div_pos; lia.
    - apply Z.lt_succ_r. apply Z.div_lt_upper_bound; lia. }
  split; [| split; [| exact Hk]].
  - unfold avgConfidence, sumConfidence. rewrite Hfold. fold n.
    destruct n as [| pn | pn]; [lia | | lia].
    destruct S as [| ps | ps]; [| | lia].
    + rewrite Z.mul_0_r, Z.add_0_l.
      replace (Zpos pn / (2 * Zpos pn)) with 0 by (symmetry; apply Z.div_small; lia).
      rewrite (fromZ_pos pn) by (change (2 ^ 53) with 9007199254740992; lia).
      reflexivity.
    + rewrite (fromZ_pos ps), (fromZ_pos pn)
        by (change (2 ^ 53) with 9007199254740992; lia).
      apply div_round; [lia | change (2 ^ 46) with 70368744177664; lia].
  - unfold roundedMean. rewrite Hq. fold n. f_equal. apply Qfloor_mean; assumption.
Qed.

Lemma C10_witness :
  avgConfidence mockAnalyses = fromZ 61 /\ roundedMean mockAnalyses = Some 61.
Proof.
  assert (Hall : Forall wholePercent mockAnalyses).
  { repeat constructor.
    - exists 95. split; [lia | reflexivity].
    - exists 87. split; [lia | reflexivity].
    - exists 0. split; [lia | reflexivity]. }
  destruct (proj2 (proj2 C10_avg_confidence) mockAnalyses ltac:(discriminate)
              ltac:(reflexivity) Hall) as (k & Havg & Hmean & _).
  assert (Hk : k = 61).
  { assert (H61 : roundedMean mockAnalyses = Some 61) by (vm_compute; reflexivity).
    congruence. }
  rewrite <- Hk. split; [exact Havg | exact Hmean].
Defined.

End DashboardStats.

(** * Further properties of the code *)

(** ** Names, extensions and blank code *)
Section Names.
Import JS Analyze Page.

Lemma trimEnd_allWhite (s : string) : trimEnd s = "" <-> allWhite s = true.
Proof.
  induction s as [| c s IH]; cbn [trimEnd allWhite]; [tauto |].
  destruct (trimEnd s) as [| d t] eqn:E.
  - destruct (is_white c); cbn [andb].
    + split; intros _; [now apply IH | reflexivity].
    + split; discriminate.
  - split; [discriminate |]. intros H. apply andb_true_iff in H as [_ H].
    apply IH in H. discriminate.
Qed.

Lemma trim_allWhite (s : string) : trim s = "" <-> allWhite s = true.
Proof.
  unfold trim. rewrite trimEnd_allWhite.
  induction s as [| c s IH]; cbn [trimStart allWhite]; [tauto |].
  destruct (is_white c) eqn:Hc; cbn [andb]; [exact IH |].
  cbn [allWhite]. rewrite Hc. tauto.
Qed.

(** On code made of white characters only (the empty code too),
    [handleAnalyze] shows "No code to analyze" and does nothing else,
    whatever the awaited step is: a result of an earlier run stays, and
    neither [progress] nor [isAnalyzing] is written.  On any other code the
    step is awaited, from the state with the result cleared.  Either way
    the handler returns: what the step throws never leaves it. *)
Theorem handleAnalyze_blank_iff (analysis : M AnalysisResult) (st : State) :
  (allWhite (code st) = true ->
   handleAnalyze_with analysis st = (Returned tt, logged (ShowToast noCodeToast) st)) /\
  (allWhite (code st) = false ->
   handleAnalyze_with analysis st
   = match analysis (analysisStarted st) with
     | (Returned r, st1) => (Returned tt, analysisDone r st1)
     | (Thrown _, st1) => (Returned tt, analysisFailed st1)
     end) /\
  fst (handleAnalyze_with analysis st) = Returned tt.
Proof.
  rewrite !handleAnalyze_with_cases. split; [| split].
  - intros H. apply trim_allWhite in H. rewrite H. reflexivity.
  - intros H.
    assert (Ht : truthy (trim (code st)) = true).
    { apply truthy_nonempty. intros E. apply trim_allWhite in E. congruence. }
    rewrite Ht. reflexivity.
  - destruct (truthy (trim (code st))); [| reflexivity].
    destruct (analysis (analysisStarted st)) as [[r | e] st1]; reflexivity.
Qed.

Lemma handleAnalyze_blank_iff_witness :
  let st := mkState "  " "python" false 100 (Some mockResult) None [] [] in
  analysisResult (exec handleAnalyze st) = Some mockResult /\
  isAnalyzing (exec (handleAnalyze_with rejectingAnalysis) (exec (setCode " x ") st)) = false.
Proof.
  intros st. split.
  - assert (H : allWhite (code st) = true) by reflexivity.
    pose proof (proj1 (handleAnalyze_blank_iff simulateAnalysis st) H) as E.
    unfold handleAnalyze, exec. rewrite E. reflexivity.
  - assert (H : allWhite (code (exec (setCode " x ") st)) = false) by reflexivity.
    pose proof (proj1 (proj2 (handleAnalyze_blank_iff rejectingAnalysis _)) H) as E.
    unfold exec at 1. rewrite E. reflexivity.
Defined.

(** A name without a dot is its own last segment: the handler takes a
    file that has no extension at all when its whole name, in lower case,
    spells one of the allowed extensions (a file named [py] or [JS]), and
    turns every other such file away as an invalid type. *)
Theorem handleFileUpload_dotless_name (st : State) (file : File) (rest : list File) :
  contains "." (name file) = false ->
  fileExtension file = "." +:+ toLowerCase (name file) /\
  (size file <= 10 * 1024 * 1024 ->
   ("." +:+ toLowerCase (name file)) ∈ allowedTypes ->
   exec (handleFileUpload (file :: rest)) st = uploadStarted file st) /\
  (("." +:+ toLowerCase (name file)) ∉ allowedTypes ->
   exec (handleFileUpload (file :: rest)) st = logged (ShowToast invalidTypeToast) st).
Proof.
  intros Hdot.
  assert (E : fileExtension file = "." +:+ toLowerCase (name file)).
  { unfold fileExtension, pop. rewrite (split_whole "." _ Hdot). reflexivity. }
  split; [exact E |]. unfold exec. rewrite handleFileUpload_cases, E. split.
  - intros Hsize Hin. apply includes_elem_of in Hin. rewrite Hin. cbn [negb].
    change (10 * 1024 * 1024) with maxUpload in Hsize.
    destruct (N.ltb_spec maxUpload (size file)); [lia | reflexivity].
  - intros Hout. apply includes_not_elem_of in Hout. rewrite Hout. reflexivity.
Qed.

Lemma handleFileUpload_dotless_name_witness :
  let file := mkFile "py" 20 "" "print(1)" in
  exec (handleFileUpload [file]) initial = uploadStarted file initial.
Proof.
  intros file.
  refine (proj1 (proj2 (handleFileUpload_dotless_name initial file [] _)) _ _).
  - reflexivity.
  - vm_compute. discriminate.
  - apply includes_elem_of. vm_compute. reflexivity.
Defined.

Lemma head_split (sep : ascii) (s : string) :
  exists h, head (split sep s) = Some h /\ contains sep h = false /\
            (contains sep s = false -> h = s) /\
            (contains sep s = true -> exists rest, s = h +:+ String sep rest).
Proof.
  induction s as [| c s (h & Hh & Hno & Hwhole & Hsplit)]; cbn [split contains].
  - exists "". repeat split; try reflexivity. discriminate.
  - destruct (Ascii.eqb c sep) eqn:Hc.
    + exists "". cbn [orb]. repeat split; try discriminate.
      intros _. apply Ascii.eqb_eq in Hc. subst c. now exists s.
    + cbn [orb]. destruct (split sep s) as [| h' t] eqn:E; [discriminate |].
      cbn [head] in Hh. injection Hh as ->.
      exists (String c h). cbn [head contains]. rewrite Hc, Hno.
      repeat split.
      * intros Hs. now rewrite (Hwhole Hs).
      * intros Hs. destruct (Hsplit Hs) as (rest & ->). now exists rest.
Qed.

(** The name in "Welcome back, ...!" is the e-mail address up to its
    first [@], which it leaves out: the whole address when there is no
    [@] in it, and nothing when there is no address. *)
Theorem displayName_prefix (email : string) :
  Dashboard.displayName None = None /\
  exists name,
    Dashboard.displayName (Some email) = Some name /\
    contains "@" name = false /\
    (contains "@" email = false -> name = email) /\
    (contains "@" email = true -> exists rest, email = name +:+ String "@" rest).
Proof.
  split; [reflexivity |]. unfold Dashboard.displayName. apply head_split.
Qed.

End Names.

(** ** What the page keeps along every sequence of events *)
Section PageInvariants.
Import JS Analyze Page.

Variable analysis : M AnalysisResult.
Hypothesis analysis_frame : progress_only analysis.

Lemma langMap_values (e lang : string) :
  e ∈ allowedTypes -> langMap !! substring1 e = Some lang -> lang ∈ languageOptions.
Proof.
  intros He Hl.
  assert (Hall : forallb (fun e => match langMap !! substring1 e with
                                   | Some l => includes languageOptions l
                                   | None => false
                                   end) allowedTypes = true)
    by (vm_compute; reflexivity).
  rewrite forallb_forall in Hall.
  specialize (Hall e (proj1 (list_elem_of_In _ _) He)). rewrite Hl in Hall.
  now apply includes_elem_of.
Qed.

(** The three cells that the invariants read, after one event. *)
Lemma handle_cells (e : event) (st : State) :
  uploadsChecked st ->
  let st' := exec (handle analysis e) st in
  (uploadedFile st' = uploadedFile st \/
   exists file, uploadedFile st' = Some file /\ passesChecks file) /\
  (readers st' = readers st \/
   (exists i, readers st' = delete i (readers st)) \/
   exists file, passesChecks file /\
                readers st' = readers st ++ [(fileExtension file, content file)]) /\
  (language st' = language st \/
   language st' ∈ languageOptions \/
   exists value, e = LanguageChange value /\ language st' = value).
Proof.
  intros [_ Hreaders] st'. subst st'.
  destruct e as [files | i | value | value | | | | rejects]; cbn [handle].
  - destruct files as [| file rest]; [cbn; tauto |].
    unfold exec. rewrite handleFileUpload_cases.
    destruct (includes allowedTypes (fileExtension file)) eqn:Hext; cbn [negb];
      [| cbn; tauto].
    destruct (N.ltb_spec maxUpload (size file)) as [Hbig | Hsmall]; [cbn; tauto |].
    assert (Hok : passesChecks file)
      by (split; [now apply includes_elem_of | exact Hsmall]).
    cbn [snd uploadStarted uploadedFile readers language].
    split; [right; now exists file |].
    split; [right; right; now exists file | now left].
  - unfold exec, fire_reader, bind, get. cbn beta iota.
    destruct (readers st !! i) as [[ext text] |] eqn:Hi; [| cbn; tauto].
    rewrite Forall_lookup in Hreaders. specialize (Hreaders i _ Hi). cbn [fst] in Hreaders.
    destruct (langMap_total ext Hreaders) as (lang & Hl & Ht).
    unfold modify. cbn beta iota.
    match goal with
    | |- context [snd (reader_onload ?x ?c ?s)] =>
        change (snd (reader_onload x c s)) with (exec (reader_onload x c) s);
        rewrite (reader_onload_language x c lang s Hl Ht)
    end.
    cbn [uploadedFile readers language].
    split; [now left |]. split; [right; left; now exists i |].
    right; left. exact (langMap_values ext lang Hreaders Hl).
  - cbn. tauto.
  - cbn. split; [now left |]. split; [now left |]. right; right. now exists value.
  - unfold exec. rewrite handleAnalyze_with_cases.
    destruct (truthy (trim (code st))); [| cbn; tauto].
    pose proof (analysis_frame (analysisStarted st)) as Hframe. cbv zeta in Hframe.
    destruct Hframe as (_ & Hlang & _ & _ & Hfile & Hrd & _).
    destruct (analysis (analysisStarted st)) as [[r | err] st1]; cbn [snd] in *;
      cbn [analysisDone analysisFailed uploadedFile readers language];
      rewrite Hlang, Hfile, Hrd; cbn; tauto.
  - unfold exec, copyClick, bind, get. cbn beta iota.
    destruct (analysisResult st); cbn; tauto.
  - unfold exec, downloadPatch, bind, get. cbn beta iota.
    destruct (analysisResult st); cbn; tauto.
  - destruct rejects; cbn; tauto.
Qed.

Lemma handle_uploadsChecked (e : event) (st : State) :
  uploadsChecked st -> uploadsChecked (exec (handle analysis e) st).
Proof.
  intros Hst. destruct (handle_cells e st Hst) as (Hfile & Hrd & _).
  destruct Hst as [Hup Hreaders]. split.
  - intros file Hsome. destruct Hfile as [Heq | (file' & Heq & Hok)].
    + apply Hup. congruence.
    + congruence.
  - destruct Hrd as [-> | [(i & ->) | (file & [Hext _] & ->)]].
    + exact Hreaders.
    + now apply Forall_delete.
    + apply Forall_app. split; [exact Hreaders |]. constructor; [exact Hext | constructor].
Qed.

Lemma run_uploadsChecked (es : list event) (st : State) :
  uploadsChecked st -> uploadsChecked (run analysis es st).
Proof.
  revert st. induction es as [| e es IH]; intros st Hst; [exact Hst |].
  cbn [run fold_left]. apply IH. now apply handle_uploadsChecked.
Qed.

Lemma initial_uploadsChecked : uploadsChecked initial.
Proof. split; [discriminate | constructor]. Qed.

(** Whatever the user does, a file that the page shows as uploaded has
    passed both checks: its computed extension is in the allow-list and it
    has at most 10 * 1024 * 1024 bytes.  A rejected upload never replaces
    the file shown. *)
Theorem uploadedFile_always_checked (es : list event) (file : File) :
  uploadedFile (run analysis es initial) = Some file ->
  fileExtension file ∈ allowedTypes /\ size file <= 10 * 1024 * 1024.
Proof.
  intros H. exact (proj1 (run_uploadsChecked es initial initial_uploadsChecked) file H).
Qed.

(** Every reader that is still to fire was started for an allowed
    extension, so its [onload] always finds its key in [langMap]: the
    lookup never falls through to a key that the map does not define. *)
Theorem readers_always_mapped (es : list event) (ext text : string) :
  (ext, text) ∈ readers (run analysis es initial) ->
  ext ∈ allowedTypes /\ is_Some (langMap !! substring1 ext).
Proof.
  intros H.
  pose proof (proj2 (run_uploadsChecked es initial initial_uploadsChecked)) as Hall.
  rewrite Forall_forall in Hall. specialize (Hall _ H). cbn [fst] in Hall.
  split; [exact Hall |].
  destruct (langMap_total ext Hall) as (lang & Hl & _). now exists lang.
Qed.

Lemma run_language (es : list event) (st : State) :
  Forall selectable es -> uploadsChecked st -> language st ∈ languageOptions ->
  language (run analysis es st) ∈ languageOptions.
Proof.
  revert st. induction es as [| e es IH]; intros st Hes Hst Hlang; [exact Hlang |].
  cbn [run fold_left]. apply Forall_cons in Hes as [He Hes].
  apply IH; [exact Hes | now apply handle_uploadsChecked |].
  destruct (handle_cells e st Hst) as (_ & _ & [-> | [Hin | (value & -> & ->)]]);
    [exact Hlang | exact Hin | exact He].
Qed.

(** As long as the language select hands over one of its own items,
    [language] is one of the ten items of the select after every sequence
    of events: what the auto-detection writes is always an item that the
    select can show. *)
Theorem language_always_selectable (es : list event) :
  Forall selectable es ->
  language (run analysis es initial) ∈ languageOptions.
Proof.
  intros Hes. apply run_language; [exact Hes | exact initial_uploadsChecked |].
  apply includes_elem_of. reflexivity.
Qed.

End PageInvariants.

Lemma uploadedFile_always_checked_witness :
  let big := Analyze.mkFile "bundle.js" 10485761 "text/javascript" "" in
  let small := Analyze.mkFile "main.py" 300 "text/x-python" "print(1)" in
  let es := [Page.FileInputChange [small]; Page.FileInputChange [big]] in
  Analyze.uploadedFile (Page.run Analyze.simulateAnalysis es Analyze.initial) = Some small /\
  Analyze.fileExtension small ∈ Analyze.allowedTypes /\
  (Analyze.size small <= 10 * 1024 * 1024)%N.
Proof.
  intros big small es.
  assert (H : Analyze.uploadedFile (Page.run Analyze.simulateAnalysis es Analyze.initial)
              = Some small) by reflexivity.
  split; [exact H |].
  exact (uploadedFile_always_checked Analyze.simulateAnalysis
           simulateAnalysis_progress_only es small H).
Defined.

Lemma readers_always_mapped_witness :
  let file := Analyze.mkFile "lib.rs" 40 "" "fn main() {}" in
  is_Some (Analyze.langMap !! JS.substring1 ".rs").
Proof.
  intros file.
  refine (proj2 (readers_always_mapped Analyze.simulateAnalysis
                   simulateAnalysis_progress_only
                   [Page.FileInputChange [file]] ".rs" "fn main() {}" _)).
  vm_compute. constructor.
Defined.

Lemma language_always_selectable_witness :
  let file := Analyze.mkFile "lib.rs" 40 "" "fn main() {}" in
  let es := [Page.LanguageChange "php"; Page.FileInputChange [file]; Page.ReaderLoad 0] in
  Analyze.language (Page.run Analyze.simulateAnalysis es Analyze.initial)
    ∈ Analyze.languageOptions.
Proof.
  intros file es.
  refine (language_always_selectable Analyze.simulateAnalysis
            simulateAnalysis_progress_only es _).
  repeat constructor.
Defined.

(** ** Uploads, readers and exports together *)
Section Flows.
Import JS Analyze Page.

Lemma passesChecks_upload (st : State) (file : File) (rest : list File) :
  passesChecks file ->
  exec (handleFileUpload (file :: rest)) st = uploadStarted file st.
Proof.
  intros [Hext Hsize]. unfold exec. rewrite handleFileUpload_cases.
  apply includes_elem_of in Hext. rewrite Hext. cbn [negb].
  destruct (N.ltb_spec maxUpload (size file)); [lia | reflexivity].
Qed.

(** The reader at position [length l] of [l ++ r :: l'] fires. *)
Lemma fire_reader_middle (st : State) (l l' : list (string * string))
    (ext text lang : string) :
  readers st = l ++ (ext, text) :: l' ->
  langMap !! substring1 ext = Some lang -> truthy lang = true ->
  exec (fire_reader (length l)) st
  = mkState text lang (isAnalyzing st) (progress st) (analysisResult st)
            (uploadedFile st) (l ++ l') (log st).
Proof.
  intros Hrd Hl Ht. unfold exec, fire_reader, bind, get. cbn beta iota.
  rewrite Hrd, list_lookup_middle by reflexivity.
  unfold modify. cbn beta iota.
  match goal with
  | |- snd (reader_onload ?x ?c ?s) = _ =>
      change (snd (reader_onload x c s)) with (exec (reader_onload x c) s);
      rewrite (reader_onload_language x c lang s Hl Ht)
  end.
  cbn [isAnalyzing progress analysisResult uploadedFile readers log].
  rewrite Hrd, delete_middle. reflexivity.
Qed.

Lemma passesChecks_name (file : File) : passesChecks file -> truthy (name file) = true.
Proof.
  intros [Hext _]. destruct (name file) eqn:E; [| reflexivity].
  apply includes_elem_of in Hext. unfold fileExtension in Hext. rewrite E in Hext.
  vm_compute in Hext. discriminate.
Qed.

Lemma downloadPatch_some (st : State) (r : AnalysisResult) :
  analysisResult st = Some r ->
  exec downloadPatch st
  = logged (Download (match uploadedFile st with
                      | Some file => if truthy (name file) then name file else "code"
                      | None => "code"
                      end +:+ "_fixed." +:+ language st)
                     (fixes r)) st.
Proof.
  intros H. unfold exec, downloadPatch, bind, get. cbn beta iota. rewrite H.
  reflexivity.
Qed.

(** From choosing a file to downloading the patch: the user picks a file
    that passes the checks, its reader fires, the analysis runs on its
    text (which is not blank) and the patch is downloaded.  The download
    is named after the whole file name and the detected language, as in
    [main.py_fixed.python], and holds the [fixes] of the result. *)
Theorem upload_analyze_download (st : State) (file : File) (rest : list File) :
  passesChecks file ->
  trim (content file) <> "" ->
  exists lang,
    langMap !! substring1 (fileExtension file) = Some lang /\
    let es := [FileInputChange (file :: rest); ReaderLoad (length (readers st));
               AnalyzeClick; DownloadClick] in
    let st' := run simulateAnalysis es st in
    last (log st') = Some (Download (name file +:+ "_fixed." +:+ lang) (fixes mockResult)) /\
    code st' = content file /\ language st' = lang /\ uploadedFile st' = Some file /\
    analysisResult st' = Some mockResult.
Proof.
  intros Hok Hcode.
  destruct (langMap_total _ (proj1 Hok)) as (lang & Hl & Ht).
  exists lang. split; [exact Hl |].
  cbv zeta. cbn [run fold_left handle].
  rewrite (passesChecks_upload st file rest Hok).
  rewrite (fire_reader_middle (uploadStarted file st) (readers st) []
             (fileExtension file) (content file) lang eq_refl Hl Ht).
  apply truthy_nonempty in Hcode.
  match goal with
  | |- context [exec (handleAnalyze_with simulateAnalysis) ?s] =>
      assert (E : exec (handleAnalyze_with simulateAnalysis) s
                  = analysisDone mockResult (snd (simulateAnalysis (analysisStarted s))))
        by (unfold exec; rewrite handleAnalyze_with_cases; cbn [code];
            rewrite Hcode, simulateAnalysis_run; reflexivity);
      rewrite E; clear E
  end.
  rewrite simulateAnalysis_run. cbn [snd].
  match goal with
  | |- context [exec downloadPatch ?s] =>
      rewrite (downloadPatch_some s mockResult eq_refl)
  end.
  cbn [logged analysisDone analysisStarted uploadStarted
       analysisResult uploadedFile language code log].
  rewrite (passesChecks_name file Hok), last_snoc. repeat split.
Qed.

Lemma upload_analyze_download_witness :
  let file := mkFile "main.py" 9 "text/x-python" "print(1)" in
  let es := [FileInputChange [file]; ReaderLoad 0; AnalyzeClick; DownloadClick] in
  last (log (run simulateAnalysis es initial))
  = Some (Download "main.py_fixed.python" (fixes mockResult)).
Proof.
  intros file es.
  assert (Hok : passesChecks file).
  { split; [apply includes_elem_of; reflexivity | vm_compute; discriminate]. }
  assert (Hcode : trim (content file) <> "") by (vm_compute; discriminate).
  destruct (upload_analyze_download initial file [] Hok Hcode) as (lang & Hl & Hlast & _).
  assert (Hpy : langMap !! substring1 (fileExtension file) = Some "python")
    by (vm_compute; reflexivity).
  assert (Hlang : lang = "python") by congruence.
  rewrite Hlang in Hlast. exact Hlast.
Defined.

(** Two uploads in a row: readers fire in the order the browser finishes
    them.  When the reader of the first file fires after the reader of the
    second, the page shows the second file as uploaded while [code] holds
    the text of the first and [language] the language of the first. *)
Theorem late_reader_overwrites (st : State) (a b : File) :
  passesChecks a -> passesChecks b ->
  exists lang_a,
    langMap !! substring1 (fileExtension a) = Some lang_a /\
    let n := length (readers st) in
    let st' := exec (fire_reader n)
                 (exec (fire_reader (S n))
                    (exec (handleFileUpload [b]) (exec (handleFileUpload [a]) st))) in
    uploadedFile st' = Some b /\ code st' = content a /\ language st' = lang_a /\
    readers st' = readers st.
Proof.
  intros Ha Hb.
  destruct (langMap_total _ (proj1 Ha)) as (la & Hla & Hta).
  destruct (langMap_total _ (proj1 Hb)) as (lb & Hlb & Htb).
  exists la. split; [exact Hla |]. cbv zeta.
  rewrite (passesChecks_upload st a [] Ha), (passesChecks_upload _ b [] Hb).
  assert (Hlen : S (length (readers st))
                 = length (readers st ++ [(fileExtension a, content a)])).
  { rewrite length_app. cbn. lia. }
  rewrite Hlen.
  rewrite (fire_reader_middle (uploadStarted b (uploadStarted a st))
             (readers st ++ [(fileExtension a, content a)]) []
             (fileExtension b) (content b) lb eq_refl Hlb Htb).
  rewrite app_nil_r.
  match goal with
  | |- context [exec (fire_reader (length (readers st))) ?s] =>
      rewrite (fire_reader_middle s (readers st) [] (fileExtension a) (content a) la
                 eq_refl Hla Hta)
  end.
  rewrite app_nil_r. repeat split.
Qed.

Lemma late_reader_overwrites_witness :
  let a := mkFile "big.ts" 9000000 "" "let a: number" in
  let b := mkFile "tiny.py" 9 "" "print(1)" in
  let st' := exec (fire_reader 0)
               (exec (fire_reader 1)
                  (exec (handleFileUpload [b]) (exec (handleFileUpload [a]) initial))) in
  uploadedFile st' = Some b /\ code st' = "let a: number".
Proof.
  intros a b.
  assert (Ha : passesChecks a)
    by (split; [apply includes_elem_of; reflexivity | vm_compute; discriminate]).
  assert (Hb : passesChecks b)
    by (split; [apply includes_elem_of; reflexivity | vm_compute; discriminate]).
  destruct (late_reader_overwrites initial a b Ha Hb) as (la & _ & Hfile & Hcode & _).
  split; [exact Hfile | exact Hcode].
Defined.

End Flows.

(** ** What can be copied or downloaded *)
Section Exports.
Import JS Analyze Page.

Lemma reader_onload_result (fileExtension content : string) (st : State) :
  analysisResult (exec (reader_onload fileExtension content) st) = analysisResult st.
Proof.
  unfold exec, reader_onload, bind, setCode, setLanguage, modify, ret. cbn beta iota.
  destruct (langMap !! substring1 fileExtension) as [l |]; [| reflexivity].
  destruct (truthy l); reflexivity.
Qed.

Lemma handle_exports (e : event) (st : State) :
  analysisResult st = None \/ analysisResult st = Some mockResult ->
  let st' := exec (handle simulateAnalysis e) st in
  (analysisResult st' = None \/ analysisResult st' = Some mockResult) /\
  exists l, log st' = log st ++ l /\
            Forall (fun x => forall text, exportedText x = Some text -> text = fixes mockResult) l.
Proof.
  intros Hres st'. subst st'.
  assert (Hnil : exists l, log st = log st ++ l /\
            Forall (fun x => forall text, exportedText x = Some text -> text = fixes mockResult) l)
    by (exists []; split; [now rewrite app_nil_r | constructor]).
  assert (Hquiet : forall x, exportedText x = None ->
            exists l, log st ++ [x] = log st ++ l /\
            Forall (fun x => forall text, exportedText x = Some text -> text = fixes mockResult) l).
  { intros x Hx. exists [x]. split; [reflexivity |].
    constructor; [| constructor]. intros text Ht. congruence. }
  destruct e as [files | i | value | value | | | | rejects]; cbn [handle].
  - destruct files as [| file rest]; [split; [exact Hres | exact Hnil] |].
    unfold exec. rewrite handleFileUpload_cases.
    destruct (negb _); [| destruct (maxUpload <? size file)]; cbn [snd];
      (split; [exact Hres |]); try exact Hnil; now apply Hquiet.
  - unfold exec, fire_reader, bind, get. cbn beta iota.
    destruct (readers st !! i) as [[ext text] |]; [| split; [exact Hres | exact Hnil]].
    unfold modify. cbn beta iota.
    match goal with
    | |- context [snd (reader_onload ?x ?c ?s)] =>
        change (snd (reader_onload x c s)) with (exec (reader_onload x c) s)
    end.
    rewrite reader_onload_result, reader_onload_log. split; [exact Hres | exact Hnil].
  - split; [exact Hres | exact Hnil].
  - split; [exact Hres | exact Hnil].
  - unfold exec. rewrite handleAnalyze_with_cases.
    destruct (truthy (trim (code st))).
    + rewrite simulateAnalysis_run. cbn [snd analysisDone analysisStarted analysisResult log].
      split; [now right |].
      eexists. rewrite <- !app_assoc. split; [reflexivity |].
      repeat (constructor; [intros text Ht; discriminate |]). constructor.
    + split; [exact Hres | now apply Hquiet].
  - unfold exec, copyClick, bind, get. cbn beta iota.
    destruct (analysisResult st) as [r |] eqn:Hr; [| split; [now left | exact Hnil]].
    destruct Hres as [Hres | Hres]; [discriminate |]. injection Hres as ->.
    cbn. split; [now right |].
    eexists. rewrite <- !app_assoc. split; [reflexivity |]. cbn [app].
    constructor; [intros text Ht; cbn [exportedText] in Ht; now injection Ht as <- |].
    constructor; [intros text Ht; discriminate | constructor].
  - destruct (analysisResult st) as [r |] eqn:Hr.
    + rewrite (downloadPatch_some st r Hr). cbn [logged analysisResult log].
      rewrite Hr. split; [exact Hres |].
      destruct Hres as [Hres | Hres]; [discriminate |]. injection Hres as ->.
      eexists. split; [reflexivity |].
      constructor; [intros text Ht; cbn [exportedText] in Ht; now injection Ht as <- |
                    constructor].
    + unfold exec, downloadPatch, bind, get. cbn beta iota. rewrite Hr.
      cbn. rewrite Hr. split; [now left | exact Hnil].
  - destruct rejects; cbn; (split; [exact Hres |]).
    + now apply Hquiet.
    + eexists. rewrite <- !app_assoc. split; [reflexivity |].
      repeat (constructor; [intros text Ht; discriminate |]). constructor.
Qed.

Lemma run_exports (es : list event) (st : State) :
  analysisResult st = None \/ analysisResult st = Some mockResult ->
  Forall (fun x => forall text, exportedText x = Some text -> text = fixes mockResult) (log st) ->
  Forall (fun x => forall text, exportedText x = Some text -> text = fixes mockResult)
         (log (run simulateAnalysis es st)).
Proof.
  revert st. induction es as [| e es IH]; intros st Hres Hlog; [exact Hlog |].
  cbn [run fold_left].
  destruct (handle_exports e st Hres) as (Hres' & l & Heq & Hl).
  apply IH; [exact Hres' |]. rewrite Heq. apply Forall_app. now split.
Qed.

(** Whatever code the user submits and whatever they do on the page, the
    text that reaches the clipboard or a downloaded patch is the [fixes]
    text of the mock result, never anything computed from their code. *)
Theorem exported_text_is_mock (es : list event) (e : effect) (text : string) :
  e ∈ log (run simulateAnalysis es initial) ->
  exportedText e = Some text ->
  text = mockFixes.
Proof.
  intros Hin Htext.
  pose proof (run_exports es initial (or_introl eq_refl) (List.Forall_nil _)) as Hall.
  rewrite Forall_forall in Hall. exact (Hall e Hin text Htext).
Qed.

Lemma exported_text_is_mock_witness :
  let es := [CodeChange "while (true) {}"; AnalyzeClick; CopyClick] in
  ClipboardWrite mockFixes ∈ log (run simulateAnalysis es initial).
Proof.
  intros es.
  assert (Hin : ClipboardWrite (fixes mockResult) ∈ log (run simulateAnalysis es initial)).
  { vm_compute. repeat constructor. }
  pose proof (exported_text_is_mock es (ClipboardWrite (fixes mockResult))
                (fixes mockResult) Hin eq_refl) as E.
  rewrite <- E. exact Hin.
Defined.

End Exports.

(** ** Signing out *)
Section SignOut.
Import Analyze Page Header.

(** Whatever [signOut] does, [handleSignOut] returns.  If [signOut]
    resolves, the handler shows "Signed out successfully" and then goes to
    [/]; if it rejects, the handler shows the destructive "Error signing
    out" toast and nothing else: the user stays on the page.  The state
    cells are those that [signOut] left. *)
Theorem handleSignOut_outcomes (signOut : M unit) (st : State) :
  fst (handleSignOut signOut st) = Returned tt /\
  (forall st1, signOut st = (Returned tt, st1) ->
     exec (handleSignOut signOut) st
     = logged (Navigate "/") (logged (ShowToast signedOutToast) st1)) /\
  (forall e st1, signOut st = (Thrown e, st1) ->
     exec (handleSignOut signOut) st = logged (ShowToast signOutErrorToast) st1 /\
     log (exec (handleSignOut signOut) st) = log st1 ++ [ShowToast signOutErrorToast]).
Proof.
  unfold exec, handleSignOut, try_catch, bind.
  destruct (signOut st) as [[[] | err] s1]; cbn; (split; [reflexivity | split]).
  - intros st1 H. injection H as <-. reflexivity.
  - intros e st1 H. discriminate.
  - intros st1 H. discriminate.
  - intros e st1 H. injection H as _ <-. split; reflexivity.
Qed.

Lemma handleSignOut_outcomes_witness :
  log (exec (handleSignOut (Page.signOut true)) initial) = [ShowToast signOutErrorToast] /\
  log (exec (handleSignOut (Page.signOut false)) initial)
  = [ShowToast signedOutToast; Navigate "/"].
Proof.
  split.
  - exact (proj2 (proj2 (proj2 (handleSignOut_outcomes (Page.signOut true) initial))
                   "signOut" initial eq_refl)).
  - exact (f_equal log (proj1 (proj2 (handleSignOut_outcomes (Page.signOut false) initial))
                          initial eq_refl)).
Defined.

End SignOut.


(** ** The Dropzone next to the file input *)
Section DropzoneVsPage.
Import JS Analyze Page.

Lemma length_app_string (a b : string) :
  String.length (a +:+ b) = (String.length a + String.length b)%nat.
Proof.
  induction a as [| c a IH]; simpl;
    [reflexivity | now rewrite IH].
Qed.

Lemma substring_whole (b : string) : String.substring 0 (String.length b) b = b.
Proof.
  induction b as [| c b IH]; simpl;
    [reflexivity | now rewrite IH].
Qed.

Lemma substring_app_r (a b : string) :
  String.substring (String.length a) (String.length b) (a +:+ b) = b.
Proof.
  induction a as [| c a IH]; simpl;
    [apply substring_whole | exact IH].
Qed.

Lemma endsWith_app (a b : string) : endsWith (a +:+ b) b = true.
Proof.
  unfold endsWith. rewrite length_app_string.
  replace (String.length a + String.length b - String.length b)%nat
    with (String.length a) by lia.
  rewrite substring_app_r, String.eqb_refl, andb_true_r.
  apply Nat.leb_le. lia.
Qed.

(** A file that the file input of the Analyze page takes, and whose name
    has a dot, is also taken by a Dropzone with its default props: the two
    agree on the size cap and on the twelve extensions.  (The rule by
    which react-dropzone reads its [accept] map is the one given with
    [Dropzone.entryAccepts].) *)
Theorem dropzone_takes_page_files (file : File) :
  passesChecks file ->
  contains "." (name file) = true ->
  Dropzone.accepts Dropzone.defaultProps file = true.
Proof.
  intros [Hext Hsize] Hdot.
  destruct (pop_split_suffix "." (name file) Hdot) as (stem & e & Hpop & Hname & _).
  assert (Hlower : toLowerCase (name file) = toLowerCase stem +:+ fileExtension file).
  { unfold fileExtension. rewrite Hpop. rewrite Hname at 1.
    now rewrite toLowerCase_app. }
  apply accepts_default. split; [exact Hsize |].
  right; right; right. exists (fileExtension file). split.
  - apply includes_elem_of. apply includes_elem_of in Hext.
    unfold includes in *. cbn [existsb Dropzone.defaultExtensions allowedTypes] in *.
    rewrite !orb_true_iff in *. tauto.
  - rewrite Hlower. apply endsWith_app.
Qed.

Lemma dropzone_takes_page_files_witness :
  Dropzone.accepts Dropzone.defaultProps (mkFile "Main.PY" 77 "" "print(1)") = true.
Proof.
  apply dropzone_takes_page_files.
  - split; [apply includes_elem_of; reflexivity | vm_compute; discriminate].
  - reflexivity.
Defined.

End DropzoneVsPage.

(** ** The copy button of the code block *)
Section CopyButton.
Import CodeBlock.

Variable code : string.

(** What every reachable state of the code block satisfies. *)
Lemma handle_copied (e : event) (st : State) :
  ((copied st = true -> timers st <> []) /\
   Forall (fun t => t = code) (clipboard st) /\
   Forall (fun d => d = 2000) (timers st)) ->
  (copied (handle code e st) = true -> timers (handle code e st) <> []) /\
  Forall (fun t => t = code) (clipboard (handle code e st)) /\
  Forall (fun d => d = 2000) (timers (handle code e st)).
Proof.
  intros (Hc & Hclip & Htim). destruct e as [[] | i]; cbn [handle].
  - cbn. auto.
  - cbn. repeat split.
    + intros _ H. apply app_eq_nil in H as [_ H]. discriminate.
    + apply Forall_app. split; [exact Hclip | now constructor].
    + apply Forall_app. split; [exact Htim | now constructor].
  - unfold timeout. destruct (timers st !! i); cbn; [| auto].
    repeat split; [discriminate | exact Hclip | now apply Forall_delete].
Qed.

(** The check mark of the copy button never sticks: in every state the
    code block can reach, [copied] is true only while a timer that resets
    it is still to run.  Every timer set is of 2000 ms and nothing but
    the [code] prop is ever written to the clipboard.  From such a state a
    click whose clipboard write fails changes neither [copied] nor the
    timers nor the clipboard and prints one line with [console.error]; a
    click whose write succeeds sets [copied], writes [code] and sets one
    more timer, printing nothing. *)
Theorem copied_has_pending_reset (es : list event) :
  let st := run code es initial in
  ((copied st = true -> timers st <> []) /\
   Forall (fun t => t = code) (clipboard st) /\
   Forall (fun d => d = 2000) (timers st)) /\
  (let failed := handle code (CopyClick true) st in
   copied failed = copied st /\ timers failed = timers st /\
   clipboard failed = clipboard st /\
   console failed = console st ++ ["Failed to copy text:"]) /\
  (let done := handle code (CopyClick false) st in
   copied done = true /\ timers done = timers st ++ [2000] /\
   clipboard done = clipboard st ++ [code] /\
   console done = console st).
Proof.
  cbv zeta. split; [| repeat split].
  assert (Hinit : (copied initial = true -> timers initial <> []) /\
                  Forall (fun t => t = code) (clipboard initial) /\
                  Forall (fun d => d = 2000) (timers initial))
    by (cbn; repeat split; [discriminate | constructor | constructor]).
  revert Hinit. generalize initial.
  induction es as [| e es IH]; intros st Hst; [exact Hst |].
  cbn [run fold_left]. apply IH. now apply handle_copied.
Qed.

End CopyButton.

Lemma copied_has_pending_reset_witness :
  let st := CodeBlock.run "x = 1" [CodeBlock.CopyClick false; CodeBlock.CopyClick true]
              CodeBlock.initial in
  CodeBlock.copied st = true /\ CodeBlock.timers st <> [].
Proof.
  intros st. split; [reflexivity |].
  exact (proj1 (proj1 (copied_has_pending_reset "x = 1"
                  [CodeBlock.CopyClick false; CodeBlock.CopyClick true])) eq_refl).
Defined.
